(** * Power regulation loop (regulation.py): a shallow embedding

    The regulation loop compares the photovoltaic production with the
    consumption of the house and raises or lowers the power of a list of
    equipments ordered by priority.  This file embeds [evaluate] and
    [low_energy_fallback] and proves properties of them.

    Conventions of the embedding.
    - Watts are integers ([Z]): the readings are [int(j['power'])].
    - Timestamps ([time.time()]), energies and durations are Python
      floats.  A finite float is the rational ([Q]) it holds; the float
      arithmetic of the fallback rounds every result to the nearest
      double ([binary64] below).
    - The equipment classes live in the [equipment] module, which is not
      part of this file: equipments are taken through the interface
      [Equipment] below.  An equipment object is mutable and shared
      ([equipment_water_heater] is also an element of [equipments]), so
      the tuple [equipments] is a store, a list of equipment states read
      and written by index.
    - A raised exception keeps the mutations made before it, as in
      Python: a computation returns a result and the state it reached. *)

From Stdlib Require Import ZArith QArith Qround Qpower Lia Lqa.
From stdpp Require Import base list strings.

Local Open Scope Z_scope.

(** ** Exceptions and the state monad *)

Inductive exn : Type :=
| TypeError
| ZeroDivisionError
| AttributeError
| IndexError.

Inductive res (A : Type) : Type :=
| Ok (a : A)
| Raise (x : exn).

Arguments Ok {A} a.
Arguments Raise {A} x.

Definition M (S A : Type) : Type := S -> res A * S.

Definition ret {S A} (a : A) : M S A := fun s => (Ok a, s).

Definition raise {S A} (x : exn) : M S A := fun s => (Raise x, s).

Definition bind {S A B} (c : M S A) (k : A -> M S B) : M S B :=
  fun s => match c s with
           | (Ok a, s') => k a s'
           | (Raise x, s') => (Raise x, s')
           end.

Definition get {S} : M S S := fun s => (Ok s, s).

Definition modify {S} (f : S -> S) : M S unit := fun s => (Ok tt, f s).

Notation "'do' x <- c ; k" := (bind c (fun x => k))
  (at level 10, x name, c at level 100, k at level 200).

(** ** Python values that meet in an untyped [+] *)

Inductive pyval : Type :=
| PyNone
| PyNum (q : Q)
| PyStr (s : string).

(** [a + b]: concatenation of two strings, sum of two numbers, and a
    [TypeError] for every other pair of operands. *)
Definition py_add (a b : pyval) : res pyval :=
  match a, b with
  | PyStr x, PyStr y => Ok (PyStr (x +:+ y))
  | PyNum x, PyNum y => Ok (PyNum (x + y)%Q)
  | _, _ => Raise TypeError
  end.

Definition Qlt_bool (a b : Q) : bool := negb (Qle_bool b a).

(** ** Floats

    Python's floats are IEEE 754 doubles: 53 bits of mantissa and
    exponents from -1074 up.  [+], [-], [*] and [/] on floats return the
    double nearest to the exact result, ties going to the even
    mantissa; an integer operand is first converted to a float;
    comparisons, also between a float and an integer, are exact.  A
    result beyond the largest double (an infinity in Python) is not
    modelled. *)

(** The integer part of the logarithm in base 2 of [q > 0]. *)
Definition floor_log2 (q : Q) : Z :=
  let k := Z.log2 (Qnum q) - Z.log2 (Zpos (Qden q)) in
  if Qle_bool (2 ^ k)%Q q then k else k - 1.

(** The integer nearest to [q], the even one of the two when [q] is
    half-way. *)
Definition round_half_even (q : Q) : Z :=
  let f := Qfloor q in
  match ((q - inject_Z f) ?= 1 # 2)%Q with
  | Lt => f
  | Gt => f + 1
  | Eq => if Z.even f then f else f + 1
  end.

(** The double nearest to [q]. *)
Definition binary64 (q : Q) : Q :=
  match Qnum q with
  | 0 => 0%Q
  | _ =>
      let a := Z.abs (Qnum q) # Qden q in
      let e := Z.max (-1074) (floor_log2 a - 52) in
      let m := round_half_even (a / 2 ^ e)%Q in
      let r := (inject_Z m * 2 ^ e)%Q in
      Qred (if Qle_bool 0 q then r else - r)%Q
  end.

(** [float(z)], the conversion that an integer operand undergoes. *)
Definition py_float (z : Z) : Q := binary64 (inject_Z z).

(** [x + y], [x - y] and [x * y] on floats. *)
Definition float_add (x y : Q) : Q := binary64 (x + y).
Definition float_sub (x y : Q) : Q := binary64 (x - y).
Definition float_mul (x y : Q) : Q := binary64 (x * y).

(** ** The equipment interface

    The capability set that [evaluate] uses.  [is_forced],
    [get_current_power] and [get_energy] observe the state of an
    equipment; the other methods return the new state. *)

Class Equipment (E : Type) : Type := {
  name : E -> string;
  max_power : E -> Z;
  is_forced : E -> bool;
  get_current_power : E -> option Z;
  get_energy : E -> Q;
  increase_power_by : Z -> E -> option Z * E;
  decrease_power_by : Z -> E -> option Z * E;
  force : option Z -> option Q -> E -> E;
  reset_energy : E -> E
}.

(** A call of a power method: index of the equipment in [equipments],
    the watts passed, the value returned. *)
Inductive call : Type :=
| Decrease (j : nat) (watt : Z) (result : option Z)
| Increase (j : nat) (watt : Z) (result : option Z).

Definition call_index (c : call) : nat :=
  match c with Decrease j _ _ | Increase j _ _ => j end.

Definition call_watt (c : call) : Z :=
  match c with Decrease _ w _ | Increase _ w _ => w end.

Definition call_result (c : call) : option Z :=
  match c with Decrease _ _ r | Increase _ _ r => r end.

Definition is_decrease (c : call) : bool :=
  match c with Decrease _ _ _ => true | Increase _ _ _ => false end.

(** ** The three kinds of loads

    Modelled from the spec: the equipment classes ([ConstantPowerEquipment],
    [VariablePowerEquipment], [UnknownPowerEquipment]) are defined in the
    [equipment] module, which is not among the sources.  The spec (4.1,
    4.4) gives their contract: a constant-power load is on or off and
    refuses a partial increase, answering the opposite of the watts it
    lacks; a variable-power load moves anywhere in [0, max_power];
    an unknown-power load never confirms anything.  [increase_power_by]
    answers how much of the offered power remains, [decrease_power_by] how
    much was freed.  The examples at the end of the file run [evaluate] on
    these loads. *)

Module Loads.

Inductive kind : Type := ConstantPower | VariablePower | UnknownPower.

Record load : Type := Load {
  load_name : string;
  load_kind : kind;
  load_max_power : Z;
  load_current_power : Z;
  load_energy : Q;
  load_forced : option (Z * option Q)
}.

Definition set_power (p : Z) (l : load) : load :=
  Load (load_name l) (load_kind l) (load_max_power l) p (load_energy l)
    (load_forced l).

Definition current_power (l : load) : option Z :=
  match load_kind l with
  | UnknownPower => None
  | _ => Some (load_current_power l)
  end.

Definition increase (watt : Z) (l : load) : option Z * load :=
  match load_kind l with
  | ConstantPower =>
      if load_current_power l =? load_max_power l then (Some watt, l)
      else if load_max_power l <=? watt
      then (Some (watt - load_max_power l), set_power (load_max_power l) l)
      else (Some (watt - load_max_power l), l)
  | VariablePower =>
      let taken := Z.min watt (load_max_power l - load_current_power l) in
      (Some (watt - taken), set_power (load_current_power l + taken) l)
  | UnknownPower => (None, l)
  end.

Definition decrease (watt : Z) (l : load) : option Z * load :=
  match load_kind l with
  | ConstantPower => (Some (load_current_power l), set_power 0 l)
  | VariablePower =>
      let freed := Z.min watt (load_current_power l) in
      (Some freed, set_power (load_current_power l - freed) l)
  | UnknownPower => (None, l)
  end.

Definition set_forced (power : option Z) (duration : option Q) (l : load)
  : load :=
  match power with
  | Some p =>
      Load (load_name l) (load_kind l) (load_max_power l) p (load_energy l)
        (Some (p, duration))
  | None =>
      Load (load_name l) (load_kind l) (load_max_power l)
        (load_current_power l) (load_energy l) None
  end.

Definition forced (l : load) : bool :=
  match load_forced l with
  | Some _ => true
  | None => false
  end.

Definition clear_energy (l : load) : load :=
  Load (load_name l) (load_kind l) (load_max_power l) (load_current_power l)
    0%Q (load_forced l).

#[export] Instance load_equipment : Equipment load := {
  name := load_name;
  max_power := load_max_power;
  is_forced := forced;
  get_current_power := current_power;
  get_energy := load_energy;
  increase_power_by := increase;
  decrease_power_by := decrease;
  force := set_forced;
  reset_energy := clear_energy
}.

End Loads.

(** ** What the regulation publishes on MQTT

    The payloads are kept structured.  The Domoticz message is the JSON
    object with the fields [idx], [nvalue] (always 0) and [svalue]
    ([str(injection)]); the status message is the JSON dump of the
    status dictionary ([date_str] is a rendering of [date]). *)

Record equipment_status : Type := EquipmentStatus {
  status_name : string;
  status_current_power : option Z;   (* [None] is sent as 'unknown' *)
  status_energy : Q;
  status_forced : bool
}.

Inductive payload : Type :=
| Domoticz (idx : string) (nvalue : Z) (svalue : Z)
| Status (date : Q) (consumption production injection : Z)
    (es : list equipment_status).

Record message : Type := Message {
  topic : string;
  body : payload
}.

Definition TOPIC_DOMOTICZ_IN : string := "domoticz/in".

(** ** Configuration

    The constants read from [config.ini] and the two things that the
    module takes from its environment: the local calendar and the
    weather forecast. *)

Record config : Type := Config {
  EVALUATION_PERIOD : Z;
  BALANCE_THRESHOLD : Z;
  MARGIN : Z;
  LOW_ECS_ENERGY_TWO_DAYS : Z;
  LOW_ECS_ENERGY_TODAY : Z;
  IDX_INJECTION : string;
  TOPIC_STATUS : string;
  (** [datetime.datetime.fromtimestamp(t).day]: the day of the month of a
      timestamp, in the local time zone. *)
  day : Q -> Z;
  (** [weather.getCloudAvg(TOMORROW)], asked at time [t]. *)
  getCloudAvg : Q -> pyval;
  (** Position of [equipment_water_heater] in [equipments] (0 in [main]). *)
  water_heater : nat
}.

Section Regulation.

Context {E : Type} {equipment_methods : Equipment E}.

Variable cfg : config.

(** The equipment store and the power calls made so far. *)
Record store : Type := Store {
  equipments : list E;
  calls : list call
}.

Definition the_equipment (j : nat) : M store E :=
  fun s => match equipments s !! j with
           | Some e => (Ok e, s)
           | None => (Raise IndexError, s)
           end.

Definition update (j : nat) (e : E) (c : call) : M store unit :=
  modify (fun s => Store (<[j := e]> (equipments s)) (calls s ++ [c])).

(** [equipments[j].decrease_power_by(watt)] *)
Definition call_decrease (j : nat) (watt : Z) : M store (option Z) :=
  do e <- the_equipment j ;
  let '(result, e') := decrease_power_by watt e in
  do _ <- update j e' (Decrease j watt result) ;
  ret result.

(** [equipments[j].increase_power_by(watt)] *)
Definition call_increase (j : nat) (watt : Z) : M store (option Z) :=
  do e <- the_equipment j ;
  let '(result, e') := increase_power_by watt e in
  do _ <- update j e' (Increase j watt result) ;
  ret result.

(** [range(a, b)] *)
Definition range (a b : nat) : list nat := seq a (b - a).

(** Lines 241-256: [for e in reversed(equipments)], with [js] the indices
    still to visit. *)
Fixpoint decrease_loop (js : list nat) (excess_power : Z) : M store unit :=
  match js with
  | [] => ret tt
  | j :: js' =>
      do e <- the_equipment j ;
      if is_forced e then decrease_loop js' excess_power
      else
        do result <- call_decrease j excess_power ;
        match result with
        | None => ret tt
        | Some r =>
            let excess_power := excess_power - r in
            if excess_power <=? 0 then ret tt
            else decrease_loop js' excess_power
        end
  end.

(** Lines 281-289: the power that the equipments of lower priority use,
    [js] being [range(i + 1, len(equipments))]. *)
Fixpoint freeable_loop (js : list nat) (freeable_power : Z) : M store Z :=
  match js with
  | [] => ret freeable_power
  | j :: js' =>
      do o <- the_equipment j ;
      if is_forced o then freeable_loop js' freeable_power
      else
        match get_current_power o with
        | Some p => freeable_loop js' (freeable_power + p)
        | None => freeable_loop js' freeable_power
        end
  end.

(** Lines 293-303: the recovery loop, [js] being
    [reversed(range(i + 1, len(equipments)))].  The value returned by
    [decrease_power_by] is added to [freed_power] as it comes: adding
    [None] to an integer raises [TypeError]. *)
Fixpoint recover_loop (js : list nat) (needed_power freed_power : Z)
  : M store Z :=
  match js with
  | [] => ret freed_power
  | j :: js' =>
      do o <- the_equipment j ;
      if is_forced o then recover_loop js' needed_power freed_power
      else
        do result <- call_decrease j needed_power ;
        match result with
        | None => raise TypeError
        | Some r =>
            let freed_power := freed_power + r in
            let needed_power := needed_power - r in
            if needed_power <=? 0 then ret freed_power
            else recover_loop js' needed_power freed_power
        end
  end.

(** Lines 281-308: what is done when [increase_power_by] has returned
    [- needed_power].  The result is the next value of
    [available_power]: line 306 stores in it whatever the second
    [increase_power_by] returns. *)
Definition recover_and_retry (len i : nat) (available_power needed_power : Z)
  : M store (option Z) :=
  do freeable_power <- freeable_loop (range (S i) len) 0 ;
  if freeable_power >=? needed_power then
    do freed_power <- recover_loop (reverse (range (S i) len)) needed_power 0 ;
    let new_available_power := available_power + freed_power in
    call_increase i new_available_power
  else ret (Some available_power).

(** Lines 264-312: [for i, e in enumerate(equipments)], with [ks] the
    indices still to visit and [len] the length of [equipments].
    [available_power] is an optional integer because of line 306; the
    test [available_power <= 0] of line 265 raises [TypeError] on
    [None]. *)
Fixpoint increase_loop (len : nat) (ks : list nat)
  (available_power : option Z) : M store unit :=
  match ks with
  | [] => ret tt
  | i :: ks' =>
      match available_power with
      | None => raise TypeError
      | Some available =>
          if available <=? 0 then ret tt
          else
            do e <- the_equipment i ;
            if is_forced e then increase_loop len ks' (Some available)
            else
              do result <- call_increase i available ;
              match result with
              | None => ret tt
              | Some r =>
                  if r =? 0 then ret tt
                  else if r <? 0 then
                    do a <- recover_and_retry len i available (- r) ;
                    increase_loop len ks' a
                  else increase_loop len ks' (Some r)
              end
      end
  end.

(** Lines 237-312: the comparison of the powers and the three branches. *)
Definition balance (power_production power_consumption : Z)
  : M store unit :=
  if power_consumption >? power_production - MARGIN cfg then
    let excess_power := power_consumption - (power_production - MARGIN cfg) in
    do s <- get ;
    decrease_loop (reverse (range 0 (length (equipments s)))) excess_power
  else if power_production - MARGIN cfg - power_consumption
          <? BALANCE_THRESHOLD cfg
  then ret tt
  else
    let available_power := power_production - MARGIN cfg - power_consumption in
    do s <- get ;
    let len := length (equipments s) in
    increase_loop len (range 0 len) (Some available_power).

(** ** The process-wide state of the module *)

Record regulation : Type := Regulation {
  last_evaluation_date : option Q;
  last_injection : Z;
  power_production : option Z;
  power_consumption : option Z;
  ECS_energy_yesterday : Q;
  ECS_energy_today : Q;
  CLOUD_forecast : pyval;
  equip : store;
  published : list message
}.

Definition set_last_evaluation_date (v : option Q) (g : regulation) :=
  Regulation v (last_injection g) (power_production g) (power_consumption g)
    (ECS_energy_yesterday g) (ECS_energy_today g) (CLOUD_forecast g)
    (equip g) (published g).

Definition set_last_injection (v : Z) (g : regulation) :=
  Regulation (last_evaluation_date g) v (power_production g)
    (power_consumption g) (ECS_energy_yesterday g) (ECS_energy_today g)
    (CLOUD_forecast g) (equip g) (published g).

Definition set_ECS_energy_yesterday (v : Q) (g : regulation) :=
  Regulation (last_evaluation_date g) (last_injection g) (power_production g)
    (power_consumption g) v (ECS_energy_today g) (CLOUD_forecast g)
    (equip g) (published g).

Definition set_ECS_energy_today (v : Q) (g : regulation) :=
  Regulation (last_evaluation_date g) (last_injection g) (power_production g)
    (power_consumption g) (ECS_energy_yesterday g) v (CLOUD_forecast g)
    (equip g) (published g).

Definition set_CLOUD_forecast (v : pyval) (g : regulation) :=
  Regulation (last_evaluation_date g) (last_injection g) (power_production g)
    (power_consumption g) (ECS_energy_yesterday g) (ECS_energy_today g) v
    (equip g) (published g).

Definition set_equip (v : store) (g : regulation) :=
  Regulation (last_evaluation_date g) (last_injection g) (power_production g)
    (power_consumption g) (ECS_energy_yesterday g) (ECS_energy_today g)
    (CLOUD_forecast g) v (published g).

Definition set_equipments (v : list E) (g : regulation) :=
  set_equip (Store v (calls (equip g))) g.

(** [mqtt_client.publish(topic, payload)] *)
Definition publish (tp : string) (p : payload) : M regulation unit :=
  modify (fun g =>
    Regulation (last_evaluation_date g) (last_injection g)
      (power_production g) (power_consumption g) (ECS_energy_yesterday g)
      (ECS_energy_today g) (CLOUD_forecast g) (equip g)
      (published g ++ [Message tp p])).

(** A computation on the equipments, run on the state of the module. *)
Definition on_equipments {A} (c : M store A) : M regulation A :=
  fun g => let '(r, s) := c (equip g) in (r, set_equip s g).

Definition lift_res {S A} (r : res A) : M S A := fun s => (r, s).

(** The object [equipment_water_heater]; the global is [None] as long as
    [main] has not set it. *)
Definition the_water_heater : M regulation E :=
  fun g => match equipments (equip g) !! water_heater cfg with
           | Some w => (Ok w, g)
           | None => (Raise AttributeError, g)
           end.

(** [a / b] on floats. *)
Definition py_div (a b : Q) : res Q :=
  if Qeq_bool b 0 then Raise ZeroDivisionError else Ok (binary64 (a / b)).

(** Lines 178-196.  The energies are floats, the thresholds and
    [max_power] integers: the sum of line 188 and the three operations
    of line 189 are those of the floats. *)
Definition low_energy_fallback : M regulation unit :=
  do w <- the_water_heater ;
  let max_power := max_power w in
  do g <- get ;
  if Qlt_bool (float_add (ECS_energy_yesterday g) (ECS_energy_today g))
       (inject_Z (LOW_ECS_ENERGY_TWO_DAYS cfg))
     && Qlt_bool (ECS_energy_today g) (inject_Z (LOW_ECS_ENERGY_TODAY cfg))
  then
    do duration <-
       lift_res (py_div (float_mul (py_float 3600)
                           (float_sub (py_float (LOW_ECS_ENERGY_TODAY cfg))
                                      (ECS_energy_today g)))
                        (py_float max_power)) ;
    do _ <- modify (fun g =>
              set_equipments
                (<[water_heater cfg := force (Some max_power) (Some duration) w]>
                   (equipments (equip g))) g) ;
    modify (fun g => set_ECS_energy_yesterday (ECS_energy_today g) g)
  else ret tt.

(** Line 214, the argument of [log]:
    ["[evaluate] Clouds / Production : " + CLOUD_forecast + "% / "
     + ECS_energy_today].  [CLOUD_forecast] is 999 when the module is
    loaded and then whatever the forecast returns; [ECS_energy_today] is
    a number (line 188 adds it to [ECS_energy_yesterday] and compares it
    with an integer). *)
Definition clouds_production_line (g : regulation) : res pyval :=
  match py_add (PyStr "[evaluate] Clouds / Production : ")
          (CLOUD_forecast g) with
  | Ok a =>
      match py_add a (PyStr "% / ") with
      | Ok b => py_add b (PyNum (ECS_energy_today g))
      | Raise x => Raise x
      end
  | Raise x => Raise x
  end.

(** Lines 212-222: what is done when the day has changed. *)
Definition day_rollover (t : Q) : M regulation unit :=
  do w <- the_water_heater ;
  do _ <- modify (set_ECS_energy_today (get_energy w)) ;
  do g <- get ;
  do _ <- lift_res (clouds_production_line g) ;
  do _ <- modify (set_CLOUD_forecast (getCloudAvg cfg t)) ;
  do _ <- modify (fun g =>
            set_equipments (map reset_energy (equipments (equip g))) g) ;
  low_energy_fallback.

(** Lines 207-226: the two guards.  The result tells whether the
    evaluation goes on ([false] is the [return] of line 226). *)
Definition guards (t : Q) : M regulation bool :=
  do g <- get ;
  match last_evaluation_date g with
  | Some last =>
      do _ <- (if negb (day cfg last =? day cfg t) then day_rollover t
               else ret tt) ;
      if Qlt_bool (t - last) (inject_Z (EVALUATION_PERIOD cfg)) then ret false
      else ret true
  | None => ret true
  end.

(** Lines 316-328: the Domoticz injection message.  Returns the
    injection that the status message repeats. *)
Definition report_injection (production consumption : Z)
  : M regulation Z :=
  let injection := consumption - production in
  if injection <? 0 then
    do _ <- publish TOPIC_DOMOTICZ_IN
              (Domoticz (IDX_INJECTION cfg) 0 injection) ;
    do _ <- modify (set_last_injection injection) ;
    ret injection
  else
    let injection := 0 in
    do g <- get ;
    do _ <- (if last_injection g =? 0 then ret tt
             else publish TOPIC_DOMOTICZ_IN
                    (Domoticz (IDX_INJECTION cfg) 0 injection)) ;
    do _ <- modify (set_last_injection injection) ;
    ret injection.

Definition status_of (e : E) : equipment_status :=
  EquipmentStatus (name e) (get_current_power e) (get_energy e) (is_forced e).

(** Lines 331-348: the status message. *)
Definition report_status (t : Q) (production consumption injection : Z)
  : M regulation unit :=
  do g <- get ;
  publish (TOPIC_STATUS cfg)
    (Status t consumption production injection
       (map status_of (equipments (equip g)))).

(** Lines 206-348: the body of the [try]. *)
Definition evaluate_body (t : Q) : M regulation unit :=
  do proceed <- guards t ;
  if proceed then
    do _ <- modify (set_last_evaluation_date (Some t)) ;
    do g <- get ;
    match power_production g, power_consumption g with
    | Some production, Some consumption =>
        do _ <- on_equipments (balance production consumption) ;
        do injection <- report_injection production consumption ;
        report_status t production consumption injection
    | _, _ => ret tt
    end
  else ret tt.

(** Lines 198-352: [evaluate], called when the clock reads [t].  The
    [except Exception] clause logs the exception and returns: the caller
    gets the state that the body reached. *)
Definition evaluate (t : Q) (g : regulation) : regulation :=
  snd (evaluate_body t g).

(** ** Publishing that may fail

    [publish] above always succeeds.  The calls of lines 321, 327 and
    348 can also raise (no connection, a status that [json.dumps]
    refuses): [broker m] is the exception raised when the message [m]
    is to be sent, if any.  Such a failure is in the [try] of
    [evaluate], after the balancing. *)

Definition publish_through (broker : message -> option exn)
  (tp : string) (p : payload) : M regulation unit :=
  match broker (Message tp p) with
  | Some x => raise x
  | None => publish tp p
  end.

(** Lines 316-328. *)
Definition report_injection_through (broker : message -> option exn)
  (production consumption : Z) : M regulation Z :=
  let injection := consumption - production in
  if injection <? 0 then
    do _ <- publish_through broker TOPIC_DOMOTICZ_IN
              (Domoticz (IDX_INJECTION cfg) 0 injection) ;
    do _ <- modify (set_last_injection injection) ;
    ret injection
  else
    let injection := 0 in
    do g <- get ;
    do _ <- (if last_injection g =? 0 then ret tt
             else publish_through broker TOPIC_DOMOTICZ_IN
                    (Domoticz (IDX_INJECTION cfg) 0 injection)) ;
    do _ <- modify (set_last_injection injection) ;
    ret injection.

(** Lines 331-348. *)
Definition report_status_through (broker : message -> option exn)
  (t : Q) (production consumption injection : Z) : M regulation unit :=
  do g <- get ;
  publish_through broker (TOPIC_STATUS cfg)
    (Status t consumption production injection
       (map status_of (equipments (equip g)))).

(** Lines 206-348. *)
Definition evaluate_body_through (broker : message -> option exn) (t : Q)
  : M regulation unit :=
  do proceed <- guards t ;
  if proceed then
    do _ <- modify (set_last_evaluation_date (Some t)) ;
    do g <- get ;
    match power_production g, power_consumption g with
    | Some production, Some consumption =>
        do _ <- on_equipments (balance production consumption) ;
        do injection <- report_injection_through broker production
                          consumption ;
        report_status_through broker t production consumption injection
    | _, _ => ret tt
    end
  else ret tt.

(** [try: body except Exception as e: handler] *)
Definition try_except {S A} (body : M S A) (handler : exn -> M S A) : M S A :=
  fun s => match body s with
           | (Ok a, s') => (Ok a, s')
           | (Raise x, s') => handler x s'
           end.

(** Lines 198-352, with the handler of lines 350-352, which logs the
    exception. *)
Definition evaluate_through (broker : message -> option exn) (t : Q)
  : M regulation unit :=
  try_except (evaluate_body_through broker t) (fun _ => ret tt).

(** The broker that accepts every message. *)
Definition reliable : message -> option exn := fun _ => None.

(** ** Vocabulary of the statements *)

(** The store after a power call on equipment [j]. *)
Definition after_call (s : store) (j : nat) (e' : E) (c : call) : store :=
  Store (<[j := e']> (equipments s)) (calls s ++ [c]).

(** From [s] to [s'], the state of equipment [j] is the same and none of
    the power calls made in between is a call on [j]. *)
Definition skips (j : nat) (s s' : store) : Prop :=
  equipments s' !! j = equipments s !! j /\
  exists tr, calls s' = calls s ++ tr /\
             Forall (fun c => call_index c <> j) tr.

Definition forced_at (j : nat) (s : store) : Prop :=
  exists e, equipments s !! j = Some e /\ is_forced e = true.

(** [unforced es j]: there is an equipment at index [j] and it is not
    forced. *)
Definition unforced (es : list E) (j : nat) : bool :=
  match es !! j with
  | Some e => negb (is_forced e)
  | None => false
  end.

(** The watts that the calls of a trace returned, [None] counting for
    nothing. *)
Fixpoint removed (tr : list call) : Z :=
  match tr with
  | [] => 0
  | c :: tr' => default 0 (call_result c) + removed tr'
  end.

(** A call that returned a non-negative amount, no greater than the
    amount requested (or that returned [None]). *)
Definition bounded_call (c : call) : Prop :=
  match call_result c with
  | Some r => 0 <= r <= call_watt c
  | None => True
  end.

(** The power that equipment [j] counts for in the freeable power: its
    confirmed current power if it is not forced, nothing otherwise. *)
Definition confirmed_power (es : list E) (j : nat) : Z :=
  match es !! j with
  | Some o => if is_forced o then 0 else default 0 (get_current_power o)
  | None => 0
  end.

Definition sum_over (f : nat -> Z) (js : list nat) : Z :=
  foldr (fun j acc => f j + acc) 0 js.

(** The freeable power for equipment [i]: the sum of the confirmed
    current power over the unforced equipments of strictly lower
    priority. *)
Definition freeable (es : list E) (i : nat) : Z :=
  sum_over (confirmed_power es) (range (S i) (length es)).

(** A tick of the clock at which the day of the previous evaluation is
    over. *)
Definition rollover_tick (t : Q) (g : regulation) : Prop :=
  match last_evaluation_date g with
  | Some last => day cfg last <> day cfg t
  | None => False
  end.

(** A tick at which the balancer runs when both readings are known:
    there is no previous evaluation, or it was made the same day and at
    least [EVALUATION_PERIOD] seconds ago. *)
Definition proceeds (t : Q) (g : regulation) : Prop :=
  match last_evaluation_date g with
  | Some last =>
      day cfg last = day cfg t /\
      ~ (t - last < inject_Z (EVALUATION_PERIOD cfg))%Q
  | None => True
  end.

(** A tick that the rate-limit guard rejects. *)
Definition rate_limited (t : Q) (g : regulation) : Prop :=
  match last_evaluation_date g with
  | Some last =>
      day cfg last = day cfg t /\
      (t - last < inject_Z (EVALUATION_PERIOD cfg))%Q
  | None => False
  end.



(** The state after lines 316-348, in one piece: the injection is
    [consumption - production] when that is negative and 0 otherwise;
    it is sent when it is negative, or when [last_injection] is not 0;
    then the status is sent. *)
Definition reported (t : Q) (production consumption : Z) (g : regulation)
  : regulation :=
  let injection :=
    if consumption - production <? 0 then consumption - production else 0 in
  Regulation (last_evaluation_date g) injection (power_production g)
    (power_consumption g) (ECS_energy_yesterday g) (ECS_energy_today g)
    (CLOUD_forecast g) (equip g)
    (published g
     ++ (if consumption - production <? 0
         then [Message TOPIC_DOMOTICZ_IN
                 (Domoticz (IDX_INJECTION cfg) 0 (consumption - production))]
         else if last_injection g =? 0 then []
         else [Message TOPIC_DOMOTICZ_IN (Domoticz (IDX_INJECTION cfg) 0 0)])
     ++ [Message (TOPIC_STATUS cfg)
           (Status t consumption production injection
              (map status_of (equipments (equip g))))]).

(** A trace in which every [decrease_power_by] returned an amount. *)
Definition confirmed (tr : list call) : Prop :=
  Forall (fun c => is_decrease c = true -> is_Some (call_result c)) tr.

(** What a run of the excess branch looks like: every
    [decrease_power_by] returned an amount, or the run raised
    [TypeError] right after the first one that returned [None]. *)
Definition run_shape {A} (r : res A) (tr : list call) : Prop :=
  confirmed tr \/
  (r = Raise TypeError /\
   exists tr0 j w, tr = tr0 ++ [Decrease j w None] /\ confirmed tr0).

(** The trace of the deficit pass over the indices [js], read off the
    equipments [es] as they are before the pass. *)
Inductive deficit_run (es : list E) : list nat -> Z -> list call -> Prop :=
| deficit_done excess : deficit_run es [] excess []
| deficit_forced j js excess tr e :
    es !! j = Some e -> is_forced e = true ->
    deficit_run es js excess tr ->
    deficit_run es (j :: js) excess tr
| deficit_none j js excess e :
    es !! j = Some e -> is_forced e = false ->
    (decrease_power_by excess e).1 = None ->
    deficit_run es (j :: js) excess [Decrease j excess None]
| deficit_enough j js excess e r :
    es !! j = Some e -> is_forced e = false ->
    (decrease_power_by excess e).1 = Some r -> excess - r <= 0 ->
    deficit_run es (j :: js) excess [Decrease j excess (Some r)]
| deficit_more j js excess e r tr :
    es !! j = Some e -> is_forced e = false ->
    (decrease_power_by excess e).1 = Some r -> 0 < excess - r ->
    deficit_run es js (excess - r) tr ->
    deficit_run es (j :: js) excess (Decrease j excess (Some r) :: tr).

End Regulation.

Arguments store E : clear implicits.
Arguments regulation E : clear implicits.

(** ** A house to run the regulation on

    The examples at the end of the file run on these loads and states.
    The timestamps are those of two consecutive days of November 2023,
    on which [november_2023] is the day of the month in UTC. *)

Module House.

Import Loads.

Definition november_2023 (t : Q) : Z := Qfloor t / 86400 - 19661.

Definition settings : config :=
  {| EVALUATION_PERIOD := 10;
     BALANCE_THRESHOLD := 50;
     MARGIN := 100;
     LOW_ECS_ENERGY_TWO_DAYS := 1000;
     LOW_ECS_ENERGY_TODAY := 300;
     IDX_INJECTION := "7";
     TOPIC_STATUS := "regul/status";
     day := november_2023;
     getCloudAvg := fun _ => PyNum 50;
     water_heater := 0 |}.

(** A water heater, drawing 600 W of its 1000 W. *)
Definition heater : load := Load "ECS" VariablePower 1000 600 250 None.

(** A charger that takes 1500 W or nothing, off. *)
Definition charger : load := Load "charger" ConstantPower 1500 0 0 None.

(** A plug that never confirms its power. *)
Definition plug : load := Load "plug" UnknownPower 1000 0 0 None.

(** A pump under manual control. *)
Definition pump : load :=
  Load "pump" VariablePower 1000 700 0 (Some (700, None)).

(** A radiator, drawing 300 W of its 1000 W. *)
Definition radiator : load := Load "radiator" VariablePower 1000 300 0 None.



(** The two loads of scenario 1 of the spec. *)
Definition load_a : load := Load "A" VariablePower 500 500 0 None.
Definition load_b : load := Load "B" VariablePower 1000 800 0 None.

(** 2023-11-14 22:13:20 UTC, four seconds later, one minute later, and
    the same time the day after. *)
Definition t_last : Q := 1700000000.
Definition t_soon : Q := 1700000004.
Definition t_later : Q := 1700000060.
Definition t_next_day : Q := 1700086400.

(** The state of the module after an evaluation at [t_last], with
    3000 W produced and 3500 W consumed. *)
Definition evening (es : list load) : regulation load :=
  {| last_evaluation_date := Some t_last;
     last_injection := 0;
     power_production := Some 3000;
     power_consumption := Some 3500;
     ECS_energy_yesterday := 400;
     ECS_energy_today := 100;
     CLOUD_forecast := PyNum 999;
     equip := Store es [];
     published := [] |}.

(** The same with 2100 W produced and 1000 W consumed. *)
Definition sunny (es : list load) : regulation load :=
  {| last_evaluation_date := Some t_last;
     last_injection := 0;
     power_production := Some 2100;
     power_consumption := Some 1000;
     ECS_energy_yesterday := 400;
     ECS_energy_today := 100;
     CLOUD_forecast := PyNum 999;
     equip := Store es [];
     published := [] |}.


(** The state of the module when it starts, with both readings. *)
Definition first_tick (es : list load) : regulation load :=
  {| last_evaluation_date := None;
     last_injection := -1;
     power_production := Some 3000;
     power_consumption := Some 3500;
     ECS_energy_yesterday := 0;
     ECS_energy_today := 0;
     CLOUD_forecast := PyNum 999;
     equip := Store es [];
     published := [] |}.

(** A broker to which the status cannot be sent. *)
Definition no_status (m : message) : option exn :=
  match body m with
  | Status _ _ _ _ _ => Some TypeError
  | Domoticz _ _ _ => None
  end.

End House.

(** * The MQTT callbacks

    [on_message] and [get_equipment_by_name], the callers of [evaluate]. *)

(** ** JSON values, as [json.loads] returns them

    Integers and floats are kept apart ([int] and [float] in Python);
    floats are rationals, as elsewhere.  A dictionary is the list of its
    items, each key once. *)

#[local] Unset Elimination Schemes.

Inductive json : Type :=
| JNull
| JBool (b : bool)
| JInt (z : Z)
| JFloat (q : Q)
| JStr (s : string)
| JArr (l : list json)
| JObj (items : list (string * json)).

#[local] Set Elimination Schemes.

(** The value of a key among the items of a dictionary. *)
Fixpoint item (key : string) (items : list (string * json)) : option json :=
  match items with
  | [] => None
  | (k, v) :: rest => if String.eqb k key then Some v else item key rest
  end.

(** [j[key]] with a string key: the value of the key when [j] is a
    dictionary that has it; [KeyError] when it has not, [TypeError] when
    [j] is not a dictionary.  [None] stands for the exception. *)
Definition subscript (j : json) (key : string) : option json :=
  match j with
  | JObj items => item key items
  | _ => None
  end.

(** [j.get(key)]: [None] (here [JNull]) when the key is missing;
    [AttributeError] when [j] is not a dictionary. *)
Definition dict_get (j : json) (key : string) : option json :=
  match j with
  | JObj items => Some (default JNull (item key items))
  | _ => None
  end.

(** [v == s] for a string [s]. *)
Definition is_str (v : json) (s : string) : bool :=
  match v with
  | JStr x => String.eqb x s
  | _ => false
  end.

(** [int(x)] for a float: towards zero. *)
Definition truncate (q : Q) : Z := Z.quot (Qnum q) (Zpos (Qden q)).

Definition TOPIC_REGULATION_MODE : string := "NOT_YET_IMPLEMENTED".

(** The two sensor topics of [config.ini] and the two library functions
    that [on_message] applies to what it receives. *)
Record sensors : Type := Sensors {
  TOPIC_SENSOR_CONSUMPTION : string;
  TOPIC_SENSOR_PRODUCTION : string;
  (** [json.loads(msg.payload.decode())], [None] when it raises. *)
  json_loads : string -> option json;
  (** [int(s)] for a string [s], [None] when it raises. *)
  int_of_str : string -> option Z
}.

Section Callbacks.

Context {E : Type} {equipment_methods : Equipment E}.

Variable cfg : config.
Variable sns : sensors.

(** [e.force(power, duration)] with the values found in a message,
    whatever their JSON types are.  As the methods of [Equipment], it
    returns and changes its equipment only. *)
Variable force_json : json -> json -> E -> E.

(** [int(v)], [None] when it raises. *)
Definition py_int (v : json) : option Z :=
  match v with
  | JInt z => Some z
  | JFloat q => Some (truncate q)
  | JBool b => Some (if b then 1 else 0)
  | JStr s => int_of_str sns s
  | JNull | JArr _ | JObj _ => None
  end.

(** Lines 114-118, on the equipments from index [k] on.  The equipment
    found is given by its index in [equipments]. *)
Fixpoint get_equipment_by_name_from (k : nat) (n : json) (es : list E)
  : option nat :=
  match es with
  | [] => None
  | e :: rest =>
      if is_str n (name e) then Some k
      else get_equipment_by_name_from (S k) n rest
  end.

Definition get_equipment_by_name (n : json) (es : list E) : option nat :=
  get_equipment_by_name_from 0 n es.

Definition set_power_production (v : option Z) (g : regulation E) :=
  Regulation (last_evaluation_date g) (last_injection g) v
    (power_consumption g) (ECS_energy_yesterday g) (ECS_energy_today g)
    (CLOUD_forecast g) (equip g) (published g).

Definition set_power_consumption (v : option Z) (g : regulation E) :=
  Regulation (last_evaluation_date g) (last_injection g) (power_production g)
    v (ECS_energy_yesterday g) (ECS_energy_today g)
    (CLOUD_forecast g) (equip g) (published g).

(** [int(json.loads(msg.payload.decode())['power'])] *)
Definition power_reading (payload : string) : option Z :=
  j ← json_loads sns payload;
  v ← subscript j "power";
  py_int v.

(** Lines 144-167, once the equipment [k] is found: the branch of the
    command [force]. *)
Definition force_command (t : Q) (j : json) (k : nat) (g : regulation E)
  : option (regulation E) :=
  power ← subscript j "power";
  duration ← dict_get j "duration";
  e ← equipments (equip g) !! k;
  Some (evaluate cfg t
          (set_equipments
             (<[k := force_json power duration e]> (equipments (equip g))) g)).

(** The branch of the command [unforce]: [e.force(None)], the duration
    being left to its default. *)
Definition unforce_command (t : Q) (k : nat) (g : regulation E)
  : option (regulation E) :=
  e ← equipments (equip g) !! k;
  Some (evaluate cfg t
          (set_equipments
             (<[k := force None None e]> (equipments (equip g))) g)).

(** Lines 134-168: the body of the [try], [t] being what the clock
    reads if [evaluate] is called.  [None] stands for an exception: the
    steps that can raise all come before the first assignment of their
    branch, and [evaluate] does not raise.  An equipment object counts
    as true in [if e:]. *)
Definition on_message_body (t : Q) (topic payload : string)
  (g : regulation E) : option (regulation E) :=
  if String.eqb topic (TOPIC_SENSOR_CONSUMPTION sns) then
    n ← power_reading payload;
    Some (evaluate cfg t (set_power_consumption (Some n) g))
  else if String.eqb topic (TOPIC_SENSOR_PRODUCTION sns) then
    n ← power_reading payload;
    Some (evaluate cfg t (set_power_production (Some n) g))
  else if String.eqb topic TOPIC_REGULATION_MODE then
    j ← json_loads sns payload;
    command ← subscript j "command";
    n ← subscript j "name";
    if is_str command "force" then
      match get_equipment_by_name n (equipments (equip g)) with
      | Some k => force_command t j k g
      | None => Some g
      end
    else if is_str command "unforce" then
      match get_equipment_by_name n (equipments (equip g)) with
      | Some k => unforce_command t k g
      | None => Some g
      end
    else Some g
  else Some g.

(** Lines 129-170: [on_message].  The bare [except] drops the
    exception. *)
Definition on_message (t : Q) (topic payload : string) (g : regulation E)
  : regulation E :=
  default g (on_message_body t topic payload g).

(** The messages that arrive one after the other, each with what the
    clock reads when it is handled. *)
Definition on_messages (ms : list (Q * string * string)) (g : regulation E)
  : regulation E :=
  foldl (fun g m => on_message m.1.1 m.1.2 m.2 g) g ms.

(** ** Vocabulary of the statements on the excess pass *)

(** The equipment being served after the calls [tr]: the one of the last
    [increase_power_by]. *)
Fixpoint served (cur : option nat) (tr : list call) : option nat :=
  match tr with
  | [] => cur
  | Increase i _ _ :: tr' => served (Some i) tr'
  | Decrease _ _ _ :: tr' => served cur tr'
  end.

(** The calls [tr] respect the priorities, [cur] being the equipment
    served before them: the [increase_power_by] calls never go back to
    an equipment of higher priority, and each [decrease_power_by] is on
    an equipment of strictly lower priority than the one being served. *)
Fixpoint by_priority (cur : option nat) (tr : list call) : Prop :=
  match tr with
  | [] => True
  | Increase i _ _ :: tr' =>
      match cur with Some c => (c <= i)%nat | None => True end /\
      by_priority (Some i) tr'
  | Decrease j _ _ :: tr' =>
      match cur with Some c => (c < j)%nat | None => False end /\
      by_priority cur tr'
  end.

(** A call after which the excess pass may go on: a
    [decrease_power_by], or an [increase_power_by] that returned an
    amount other than 0. *)
Definition goes_on (c : call) : Prop :=
  is_decrease c = true \/ exists x, call_result c = Some x /\ x <> 0.

(** Calls of which all but the last one let the pass go on. *)
Definition pass_shape (tr : list call) : Prop :=
  tr = [] \/ exists tr0 c, tr = tr0 ++ [c] /\ Forall goes_on tr0.

End Callbacks.

(** A load for tests, which answers [increase_power_by] from a script
    and gives back what it is asked, up to its power. *)
Module Scripted.

Record mock : Type := Mock {
  mock_name : string;
  mock_power : Z;
  mock_answers : list (option Z)
}.

Definition mock_increase (watt : Z) (m : mock) : option Z * mock :=
  match mock_answers m with
  | a :: rest => (a, Mock (mock_name m) (mock_power m) rest)
  | [] => (None, m)
  end.

Definition mock_decrease (watt : Z) (m : mock) : option Z * mock :=
  let freed := Z.min watt (mock_power m) in
  (Some freed, Mock (mock_name m) (mock_power m - freed) (mock_answers m)).

#[export] Instance mock_equipment : Equipment mock := {
  name := mock_name;
  max_power := fun _ => 1000;
  is_forced := fun _ => false;
  get_current_power := fun m => Some (mock_power m);
  get_energy := fun _ => 0%Q;
  increase_power_by := mock_increase;
  decrease_power_by := mock_decrease;
  force := fun _ _ m => m;
  reset_energy := fun m => m
}.

End Scripted.

(** Messages for the examples. *)
Module Wire.

Import Loads.

(** The character that opens and closes a JSON string. *)
Definition quote : string := String (Ascii.ascii_of_nat 34) EmptyString.

Definition key (k : string) : string := quote +:+ k +:+ quote.

(** [{"power": 3500}], [{"power": 2100}], [{"voltage": 230}], a text that
    is not JSON, [{"command": "force", "name": "boiler", "power": 500}],
    [{"command": "force", "name": "ECS"}] and
    [{"command": "blink", "name": "ECS"}]. *)
Definition power_3500 : string := "{" +:+ key "power" +:+ ": 3500}".
Definition power_2100 : string := "{" +:+ key "power" +:+ ": 2100}".
Definition voltage_230 : string := "{" +:+ key "voltage" +:+ ": 230}".
Definition pzem_error : string := "PZEM ERROR".
Definition force_boiler : string :=
  "{" +:+ key "command" +:+ ": " +:+ key "force" +:+ ", "
      +:+ key "name" +:+ ": " +:+ key "boiler" +:+ ", "
      +:+ key "power" +:+ ": 500}".
Definition force_no_power : string :=
  "{" +:+ key "command" +:+ ": " +:+ key "force" +:+ ", "
      +:+ key "name" +:+ ": " +:+ key "ECS" +:+ "}".
Definition blink : string :=
  "{" +:+ key "command" +:+ ": " +:+ key "blink" +:+ ", "
      +:+ key "name" +:+ ": " +:+ key "ECS" +:+ "}".

(** [json.loads] on these payloads. *)
Definition loads (payload : string) : option json :=
  if String.eqb payload power_3500 then Some (JObj [("power", JInt 3500)])
  else if String.eqb payload power_2100 then Some (JObj [("power", JInt 2100)])
  else if String.eqb payload voltage_230 then Some (JObj [("voltage", JInt 230)])
  else if String.eqb payload force_boiler then
    Some (JObj [("command", JStr "force"); ("name", JStr "boiler");
                ("power", JInt 500)])
  else if String.eqb payload force_no_power then
    Some (JObj [("command", JStr "force"); ("name", JStr "ECS")])
  else if String.eqb payload blink then
    Some (JObj [("command", JStr "blink"); ("name", JStr "ECS")])
  else None.

Definition wires : sensors :=
  {| TOPIC_SENSOR_CONSUMPTION := "sensors/consumption";
     TOPIC_SENSOR_PRODUCTION := "sensors/production";
     json_loads := loads;
     int_of_str := fun _ => None |}.

(** The two sensors on one topic. *)
Definition one_wire : sensors :=
  {| TOPIC_SENSOR_CONSUMPTION := "sensors/power";
     TOPIC_SENSOR_PRODUCTION := "sensors/power";
     json_loads := loads;
     int_of_str := fun _ => None |}.

(** [force] on a load, for a power that is an integer or [None]. *)
Definition force_load (power duration : json) (l : load) : load :=
  match power with
  | JInt z => set_forced (Some z) None l
  | _ => set_forced None None l
  end.

(** The state of the module when it starts, before any reading. *)
Definition start (es : list load) : regulation load :=
  {| last_evaluation_date := None;
     last_injection := -1;
     power_production := None;
     power_consumption := None;
     ECS_energy_yesterday := 0;
     ECS_energy_today := 0;
     CLOUD_forecast := PyNum 999;
     equip := Store es [];
     published := [] |}.

(** A load that refuses 1000 W for lack of 500 W and, asked again,
    does not answer; and one that draws 600 W. *)
Definition silent : Scripted.mock := Scripted.Mock "silent" 0 [Some (-500); None].
Definition donor : Scripted.mock := Scripted.Mock "donor" 600 [].

End Wire.

(** Case analysis on the test of the first conditional of the goal. *)
Ltac case_test H :=
  match goal with
  | |- context [if ?b then _ else _] => destruct b eqn:H
  end.

(** * Properties *)

Section Properties.

Context {E : Type} {equipment_methods : Equipment E}.

Variable cfg : config.

Implicit Types (e o : E) (es : list E) (s : store E) (g : regulation E).
Implicit Types (j k i len : nat) (js ks : list nat) (c : call).
Implicit Types (tr : list call).

Lemma Qlt_bool_iff (a b : Q) : Qlt_bool a b = true <-> (a < b)%Q.
Proof.
  unfold Qlt_bool. rewrite negb_true_iff.
  split.
  - intros Hb. apply Qnot_le_lt. intros Hle.
    apply Qle_bool_iff in Hle. congruence.
  - intros Hlt. destruct (Qle_bool b a) eqn:Hb; [|reflexivity].
    apply Qle_bool_iff in Hb. exfalso. eapply Qlt_not_le; eassumption.
Qed.

(** ** Running the loops: one equation per loop *)

Lemma call_decrease_eq j watt s :
  call_decrease j watt s =
  match equipments s !! j with
  | Some e =>
      let re := decrease_power_by watt e in
      (Ok re.1, after_call s j re.2 (Decrease j watt re.1))
  | None => (Raise IndexError, s)
  end.
Proof.
  unfold call_decrease, bind, the_equipment.
  destruct (equipments s !! j) as [e|]; [|reflexivity].
  destruct (decrease_power_by watt e); reflexivity.
Qed.

Lemma call_increase_eq j watt s :
  call_increase j watt s =
  match equipments s !! j with
  | Some e =>
      let re := increase_power_by watt e in
      (Ok re.1, after_call s j re.2 (Increase j watt re.1))
  | None => (Raise IndexError, s)
  end.
Proof.
  unfold call_increase, bind, the_equipment.
  destruct (equipments s !! j) as [e|]; [|reflexivity].
  destruct (increase_power_by watt e); reflexivity.
Qed.

Lemma decrease_loop_cons j js excess s :
  decrease_loop (j :: js) excess s =
  match equipments s !! j with
  | None => (Raise IndexError, s)
  | Some e =>
      if is_forced e then decrease_loop js excess s
      else
        let re := decrease_power_by excess e in
        let s1 := after_call s j re.2 (Decrease j excess re.1) in
        match re.1 with
        | None => (Ok tt, s1)
        | Some r =>
            if excess - r <=? 0 then (Ok tt, s1)
            else decrease_loop js (excess - r) s1
        end
  end.
Proof.
  cbn [decrease_loop]. unfold bind at 1. unfold the_equipment.
  destruct (equipments s !! j) as [e|] eqn:Hj; [|reflexivity].
  destruct (is_forced e); [reflexivity|].
  unfold bind. rewrite call_decrease_eq, Hj. cbn zeta.
  destruct (decrease_power_by excess e) as [[r|] e']; cbn [fst snd];
    [destruct (excess - r <=? 0)|]; reflexivity.
Qed.

Lemma freeable_loop_cons j js acc s :
  freeable_loop (j :: js) acc s =
  match equipments s !! j with
  | None => (Raise IndexError, s)
  | Some o =>
      if is_forced o then freeable_loop js acc s
      else
        match get_current_power o with
        | Some p => freeable_loop js (acc + p) s
        | None => freeable_loop js acc s
        end
  end.
Proof.
  cbn [freeable_loop]. unfold bind, the_equipment.
  destruct (equipments s !! j) as [o|]; [|reflexivity].
  destruct (is_forced o); [reflexivity|].
  destruct (get_current_power o); reflexivity.
Qed.

Lemma recover_loop_cons j js needed freed s :
  recover_loop (j :: js) needed freed s =
  match equipments s !! j with
  | None => (Raise IndexError, s)
  | Some o =>
      if is_forced o then recover_loop js needed freed s
      else
        let re := decrease_power_by needed o in
        let s1 := after_call s j re.2 (Decrease j needed re.1) in
        match re.1 with
        | None => (Raise TypeError, s1)
        | Some r =>
            if needed - r <=? 0 then (Ok (freed + r), s1)
            else recover_loop js (needed - r) (freed + r) s1
        end
  end.
Proof.
  cbn [recover_loop]. unfold bind at 1. unfold the_equipment.
  destruct (equipments s !! j) as [o|] eqn:Hj; [|reflexivity].
  destruct (is_forced o); [reflexivity|].
  unfold bind. rewrite call_decrease_eq, Hj. cbn zeta.
  destruct (decrease_power_by needed o) as [[r|] o']; cbn [fst snd];
    [destruct (needed - r <=? 0)|]; reflexivity.
Qed.

Lemma increase_loop_cons len i ks a s :
  increase_loop len (i :: ks) a s =
  match a with
  | None => (Raise TypeError, s)
  | Some available =>
      if available <=? 0 then (Ok tt, s)
      else
        match equipments s !! i with
        | None => (Raise IndexError, s)
        | Some e =>
            if is_forced e then increase_loop len ks (Some available) s
            else
              let re := increase_power_by available e in
              let s1 := after_call s i re.2 (Increase i available re.1) in
              match re.1 with
              | None => (Ok tt, s1)
              | Some r =>
                  if r =? 0 then (Ok tt, s1)
                  else if r <? 0 then
                    match recover_and_retry len i available (- r) s1 with
                    | (Ok a', s2) => increase_loop len ks a' s2
                    | (Raise x, s2) => (Raise x, s2)
                    end
                  else increase_loop len ks (Some r) s1
              end
        end
  end.
Proof.
  cbn [increase_loop]. destruct a as [available|]; [|reflexivity].
  destruct (available <=? 0); [reflexivity|].
  unfold bind at 1. unfold the_equipment.
  destruct (equipments s !! i) as [e|] eqn:Hi; [|reflexivity].
  destruct (is_forced e); [reflexivity|].
  unfold bind at 1. rewrite call_increase_eq, Hi. cbn zeta.
  destruct (increase_power_by available e) as [[r|] e']; [|reflexivity].
  cbn [fst snd].
  destruct (r =? 0); [reflexivity|].
  destruct (r <? 0); reflexivity.
Qed.

Lemma recover_and_retry_eq len i available needed s :
  recover_and_retry len i available needed s =
  match freeable_loop (range (S i) len) 0 s with
  | (Ok freeable, s0) =>
      if freeable >=? needed then
        match recover_loop (reverse (range (S i) len)) needed 0 s0 with
        | (Ok freed, s1) => call_increase i (available + freed) s1
        | (Raise x, s1) => (Raise x, s1)
        end
      else (Ok (Some available), s0)
  | (Raise x, s0) => (Raise x, s0)
  end.
Proof.
  unfold recover_and_retry, bind.
  destruct (freeable_loop (range (S i) len) 0 s) as [[freeable|x] s0];
    [|reflexivity].
  destruct (freeable >=? needed); reflexivity.
Qed.

(** ** Equipments that a run leaves alone *)

Lemma skips_refl j s : skips j s s.
Proof.
  split; [reflexivity|]. exists []. split; [|constructor].
  symmetry. apply app_nil_r.
Qed.

Lemma skips_trans j s1 s2 s3 : skips j s1 s2 -> skips j s2 s3 -> skips j s1 s3.
Proof.
  intros [E1 (tr1 & C1 & F1)] [E2 (tr2 & C2 & F2)].
  split; [congruence|].
  exists (tr1 ++ tr2). split.
  - rewrite C2, C1. symmetry. apply app_assoc.
  - apply Forall_app. split; assumption.
Qed.

Lemma skips_after_call j s k e' c :
  call_index c = k -> k <> j -> skips j s (after_call s k e' c).
Proof.
  intros Hc Hk. split; cbn.
  - apply list_lookup_insert_ne. exact Hk.
  - exists [c]. split; [reflexivity|].
    constructor; [congruence|constructor].
Qed.

Lemma skips_forced_at j s s' : skips j s s' -> forced_at j s -> forced_at j s'.
Proof.
  intros [Heq _] (e & He & Hf). exists e. split; [congruence|assumption].
Qed.

Lemma not_forced_ne j s k e :
  forced_at j s -> equipments s !! k = Some e -> is_forced e = false -> k <> j.
Proof.
  intros (e0 & He0 & Hf0) Hk Hf ->. congruence.
Qed.

Lemma decrease_loop_skips j js : forall excess s r s',
  forced_at j s -> decrease_loop js excess s = (r, s') -> skips j s s'.
Proof.
  induction js as [|k js IH]; intros excess s r s' Hj Hrun.
  - inversion Hrun; subst. apply skips_refl.
  - rewrite decrease_loop_cons in Hrun.
    destruct (equipments s !! k) as [e|] eqn:Hk.
    2:{ inversion Hrun; subst. apply skips_refl. }
    destruct (is_forced e) eqn:Hf; [eauto|].
    assert (Hne : k <> j) by (eapply not_forced_ne; eauto).
    cbn zeta in Hrun.
    pose proof (skips_after_call j s k (decrease_power_by excess e).2
                  (Decrease k excess (decrease_power_by excess e).1)
                  eq_refl Hne) as Hstep.
    destruct (decrease_power_by excess e).1 as [x|].
    + destruct (excess - x <=? 0).
      * inversion Hrun; subst. exact Hstep.
      * eapply skips_trans; [exact Hstep|].
        eapply IH; [|exact Hrun]. eapply skips_forced_at; eauto.
    + inversion Hrun; subst. exact Hstep.
Qed.

Lemma freeable_loop_state js : forall acc s, (freeable_loop js acc s).2 = s.
Proof.
  induction js as [|k js IH]; intros acc s; [reflexivity|].
  rewrite freeable_loop_cons.
  destruct (equipments s !! k) as [o|]; [|reflexivity].
  destruct (is_forced o); [apply IH|].
  destruct (get_current_power o); apply IH.
Qed.

Lemma recover_loop_skips j js : forall needed freed s r s',
  forced_at j s -> recover_loop js needed freed s = (r, s') -> skips j s s'.
Proof.
  induction js as [|k js IH]; intros needed freed s r s' Hj Hrun.
  - inversion Hrun; subst. apply skips_refl.
  - rewrite recover_loop_cons in Hrun.
    destruct (equipments s !! k) as [o|] eqn:Hk.
    2:{ inversion Hrun; subst. apply skips_refl. }
    destruct (is_forced o) eqn:Hf; [eauto|].
    assert (Hne : k <> j) by (eapply not_forced_ne; eauto).
    cbn zeta in Hrun.
    pose proof (skips_after_call j s k (decrease_power_by needed o).2
                  (Decrease k needed (decrease_power_by needed o).1)
                  eq_refl Hne) as Hstep.
    destruct (decrease_power_by needed o).1 as [x|].
    + destruct (needed - x <=? 0).
      * inversion Hrun; subst. exact Hstep.
      * eapply skips_trans; [exact Hstep|].
        eapply IH; [|exact Hrun]. eapply skips_forced_at; eauto.
    + inversion Hrun; subst. exact Hstep.
Qed.

Lemma call_increase_skips j i watt s r s' :
  i <> j -> call_increase i watt s = (r, s') -> skips j s s'.
Proof.
  intros Hne Hrun. rewrite call_increase_eq in Hrun.
  destruct (equipments s !! i) as [e|].
  - inversion Hrun; subst. apply skips_after_call; [reflexivity|exact Hne].
  - inversion Hrun; subst. apply skips_refl.
Qed.

Lemma recover_and_retry_skips j len i available needed s r s' :
  forced_at j s -> i <> j ->
  recover_and_retry len i available needed s = (r, s') -> skips j s s'.
Proof.
  intros Hj Hne Hrun. rewrite recover_and_retry_eq in Hrun.
  pose proof (freeable_loop_state (range (S i) len) 0 s) as Hst.
  destruct (freeable_loop (range (S i) len) 0 s) as [[freeable|x] s0];
    cbn in Hst; subst s0.
  2:{ inversion Hrun; subst. apply skips_refl. }
  destruct (freeable >=? needed).
  2:{ inversion Hrun; subst. apply skips_refl. }
  destruct (recover_loop (reverse (range (S i) len)) needed 0 s)
    as [[freed|x] s1] eqn:Hrec.
  - eapply skips_trans; [eapply recover_loop_skips; eauto|].
    eapply call_increase_skips; eauto.
  - inversion Hrun; subst. eapply recover_loop_skips; eauto.
Qed.

Lemma increase_loop_skips j len ks : forall a s r s',
  forced_at j s -> increase_loop len ks a s = (r, s') -> skips j s s'.
Proof.
  induction ks as [|i ks IH]; intros a s r s' Hj Hrun.
  - inversion Hrun; subst. apply skips_refl.
  - rewrite increase_loop_cons in Hrun.
    destruct a as [available|].
    2:{ inversion Hrun; subst. apply skips_refl. }
    destruct (available <=? 0).
    { inversion Hrun; subst. apply skips_refl. }
    destruct (equipments s !! i) as [e|] eqn:Hi.
    2:{ inversion Hrun; subst. apply skips_refl. }
    destruct (is_forced e) eqn:Hf; [eauto|].
    assert (Hne : i <> j) by (eapply not_forced_ne; eauto).
    cbn zeta in Hrun.
    pose proof (skips_after_call j s i (increase_power_by available e).2
                  (Increase i available (increase_power_by available e).1)
                  eq_refl Hne) as Hstep.
    pose proof (skips_forced_at _ _ _ Hstep Hj) as Hj1.
    destruct (increase_power_by available e).1 as [x|].
    2:{ inversion Hrun; subst. exact Hstep. }
    destruct (x =? 0).
    { inversion Hrun; subst. exact Hstep. }
    destruct (x <? 0).
    + destruct (recover_and_retry len i available (- x) _)
        as [[a'|y] s2] eqn:Hrec.
      * pose proof (recover_and_retry_skips _ _ _ _ _ _ _ _ Hj1 Hne Hrec)
          as Hstep2.
        eapply skips_trans; [exact Hstep|].
        eapply skips_trans; [exact Hstep2|].
        eapply IH; [|exact Hrun]. eapply skips_forced_at; eauto.
      * inversion Hrun; subst.
        eapply skips_trans; [exact Hstep|].
        eapply recover_and_retry_skips; eauto.
    + eapply skips_trans; [exact Hstep|]. eapply IH; eauto.
Qed.

Lemma balance_skips j production consumption s r s' :
  forced_at j s -> balance cfg production consumption s = (r, s') -> skips j s s'.
Proof.
  intros Hj Hrun. unfold balance in Hrun.
  destruct (consumption >? production - MARGIN cfg).
  - unfold bind, get in Hrun. eapply decrease_loop_skips; eauto.
  - destruct (production - MARGIN cfg - consumption <? BALANCE_THRESHOLD cfg).
    + inversion Hrun; subst. apply skips_refl.
    + unfold bind, get in Hrun. eapply increase_loop_skips; eauto.
Qed.

(** The summation of the freeable power does not read a forced
    equipment: its result is the same whatever the state of a forced
    equipment is. *)
Lemma freeable_loop_forced j e e' js : forall acc es cs,
  es !! j = Some e -> is_forced e = true -> is_forced e' = true ->
  (freeable_loop js acc (Store (<[j := e']> es) cs)).1
  = (freeable_loop js acc (Store es cs)).1.
Proof.
  induction js as [|k js IH]; intros acc es cs He Hf Hf'; [reflexivity|].
  rewrite !freeable_loop_cons. cbn [equipments].
  destruct (decide (k = j)) as [->|Hne].
  - rewrite list_lookup_insert_eq by (eapply lookup_lt_Some; eauto).
    rewrite He, Hf, Hf'. apply IH; assumption.
  - rewrite list_lookup_insert_ne by congruence.
    destruct (es !! k) as [o|]; [|reflexivity].
    destruct (is_forced o); [apply IH; assumption|].
    destruct (get_current_power o); apply IH; assumption.
Qed.

(** C1.  An equipment whose forced flag is set is never acted on by the
    balancer.  Whatever the production, the consumption, the margin and
    the threshold are, and whether the run ends normally or raises: the
    state of a forced equipment (its current power and its energy with
    it) is the same after [balance], no power call of the run (deficit
    pass, excess pass, recovery pass) is a call on it, and the summation
    of the freeable power does not depend on it. *)
Theorem forced_equipment_untouched production consumption s r s' j e :
  equipments s !! j = Some e ->
  is_forced e = true ->
  balance cfg production consumption s = (r, s') ->
  equipments s' !! j = Some e /\
  (get_current_power <$> equipments s' !! j = Some (get_current_power e) /\
   get_energy <$> equipments s' !! j = Some (get_energy e)) /\
  (exists tr, calls s' = calls s ++ tr /\
              Forall (fun c => call_index c <> j) tr) /\
  (forall js acc e', is_forced e' = true ->
     (freeable_loop js acc (Store (<[j := e']> (equipments s)) (calls s))).1
     = (freeable_loop js acc s).1).
Proof.
  intros He Hf Hrun.
  assert (Hj : forced_at j s) by (exists e; split; assumption).
  destruct (balance_skips j _ _ _ _ _ Hj Hrun) as [Heq Htr].
  rewrite He in Heq.
  split; [exact Heq|].
  split; [rewrite Heq; split; reflexivity|].
  split; [exact Htr|].
  intros js acc e' Hf'. destruct s as [es cs]. cbn [equipments calls] in *.
  eapply freeable_loop_forced; eauto.
Qed.

(** ** The deficit pass *)

Lemma decrease_loop_run es js : forall excess s,
  NoDup js ->
  (forall j, j ∈ js -> equipments s !! j = es !! j /\ is_Some (es !! j)) ->
  exists tr s',
    decrease_loop js excess s = (Ok tt, s') /\
    calls s' = calls s ++ tr /\
    deficit_run es js excess tr.
Proof.
  induction js as [|j js IH]; intros excess s Hnd Hfr.
  - exists [], s. split; [reflexivity|].
    split; [symmetry; apply app_nil_r|constructor].
  - apply NoDup_cons in Hnd as [Hnotin Hnd].
    destruct (Hfr j) as [Heq [e He]]; [apply elem_of_cons; by left|].
    rewrite decrease_loop_cons, Heq, He.
    assert (Hfr' : forall e' c k, k ∈ js ->
              equipments (after_call s j e' c) !! k = es !! k /\
              is_Some (es !! k)).
    { intros e' c k Hk.
      destruct (Hfr k) as [Hk1 Hk2]; [apply elem_of_cons; by right|].
      split; [|exact Hk2]. cbn. rewrite list_lookup_insert_ne; [exact Hk1|].
      intros ->. contradiction. }
    destruct (is_forced e) eqn:Hf.
    + destruct (IH excess s Hnd) as (tr & s' & Hrun & Hc & Hd).
      { intros k Hk. apply Hfr. apply elem_of_cons. by right. }
      exists tr, s'. split; [exact Hrun|]. split; [exact Hc|].
      eapply deficit_forced; eauto.
    + cbn zeta. destruct (decrease_power_by excess e).1 as [r|] eqn:Hr.
      * destruct (excess - r <=? 0) eqn:Hle.
        -- eexists [_], _. split; [reflexivity|]. split; [reflexivity|].
           eapply deficit_enough; eauto. apply Z.leb_le. exact Hle.
        -- edestruct (IH (excess - r)) as (tr & s' & Hrun & Hc & Hd);
             [exact Hnd|apply Hfr'|].
           eexists (_ :: tr), s'. split; [exact Hrun|].
           split; [rewrite Hc; cbn; rewrite <- app_assoc; reflexivity|].
           eapply deficit_more; eauto. apply Z.leb_gt in Hle. lia.
      * eexists [_], _. split; [reflexivity|]. split; [reflexivity|].
        eapply deficit_none; eauto.
Qed.

(** The equipments called are the unforced ones of a prefix of the walk;
    the walk is cut short only by a [None] or by an excess that is used
    up. *)
Lemma deficit_run_visits es js excess tr :
  deficit_run es js excess tr ->
  exists pre post,
    js = pre ++ post /\
    map call_index tr = List.filter (unforced es) pre /\
    (post = [] \/
     (exists tr0 j w, tr = tr0 ++ [Decrease j w None]) \/
     excess - removed tr <= 0).
Proof.
  induction 1 as [excess|j js excess tr e He Hf _ IH|j js excess e He Hf Hr
                 |j js excess e r He Hf Hr Hle
                 |j js excess e r tr He Hf Hr Hlt _ IH].
  - exists [], []. split; [reflexivity|]. split; [reflexivity|by left].
  - destruct IH as (pre & post & -> & Hm & Hstop).
    exists (j :: pre), post. split; [reflexivity|]. split; [|exact Hstop].
    cbn. unfold unforced at 1. rewrite He, Hf. exact Hm.
  - exists [j], js. split; [reflexivity|]. split.
    + cbn. unfold unforced. rewrite He, Hf. reflexivity.
    + right; left. exists [], j, excess. reflexivity.
  - exists [j], js. split; [reflexivity|]. split.
    + cbn. unfold unforced. rewrite He, Hf. reflexivity.
    + right; right. cbn. lia.
  - destruct IH as (pre & post & -> & Hm & Hstop).
    exists (j :: pre), post. split; [reflexivity|]. split.
    + cbn. unfold unforced at 1. rewrite He, Hf. cbn. f_equal. exact Hm.
    + destruct Hstop as [Hp|[(tr0 & j0 & w & ->)|Hx]].
      * by left.
      * right; left. exists (Decrease j excess (Some r) :: tr0), j0, w.
        reflexivity.
      * right; right. cbn. lia.
Qed.

(** Every call of the pass is a [decrease_power_by] of the excess that
    remains, and the pass goes on after a call only if the call
    returned an amount that leaves a positive excess. *)
Lemma deficit_run_requests es js excess tr :
  deficit_run es js excess tr ->
  forall pre c post, tr = pre ++ c :: post ->
    is_decrease c = true /\
    call_watt c = excess - removed pre /\
    (post <> [] ->
     exists x, call_result c = Some x /\ 0 < excess - removed pre - x).
Proof.
  induction 1 as [excess|j js excess tr e He Hf _ IH|j js excess e He Hf Hr
                 |j js excess e r He Hf Hr Hle
                 |j js excess e r tr He Hf Hr Hlt _ IH];
    intros pre c post Heq.
  - destruct pre; discriminate.
  - eauto.
  - destruct pre as [|c0 [|? ?]]; try discriminate.
    inversion Heq; subst. cbn. repeat split; [lia|congruence].
  - destruct pre as [|c0 [|? ?]]; try discriminate.
    inversion Heq; subst. cbn. repeat split; [lia|congruence].
  - destruct pre as [|c0 pre].
    + inversion Heq; subst. cbn. repeat split; [lia|].
      intros _. exists r. split; [reflexivity|lia].
    + inversion Heq; subst.
      destruct (IH pre c post eq_refl) as (Hd & Hw & Hpost).
      split; [exact Hd|]. cbn. split; [lia|].
      intros Hne. destruct (Hpost Hne) as (x & Hx & Hpos).
      exists x. split; [exact Hx|lia].
Qed.

Lemma deficit_run_removed es js excess tr :
  deficit_run es js excess tr ->
  0 <= excess -> Forall bounded_call tr -> removed tr <= excess.
Proof.
  induction 1 as [excess|j js excess tr e He Hf _ IH|j js excess e He Hf Hr
                 |j js excess e r He Hf Hr Hle
                 |j js excess e r tr He Hf Hr Hlt _ IH];
    intros Hpos Hb.
  - cbn. lia.
  - auto.
  - cbn. lia.
  - apply Forall_cons in Hb as [Hb _]. unfold bounded_call in Hb.
    cbn in *. lia.
  - apply Forall_cons in Hb as [_ Hb]. cbn.
    specialize (IH ltac:(lia) Hb). lia.
Qed.

Lemma range_0 n : range 0 n = seq 0 n.
Proof. unfold range. f_equal. lia. Qed.

Lemma reverse_range_prefix n pre post :
  reverse (range 0 n) = pre ++ post ->
  pre = reverse (range (length post) n) /\ (length post <= n)%nat.
Proof.
  intros Heq. apply (f_equal reverse) in Heq.
  rewrite reverse_involutive, reverse_app, range_0 in Heq.
  assert (Hlen : n = (length post + length pre)%nat).
  { apply (f_equal length) in Heq.
    rewrite length_seq, length_app, !length_reverse in Heq. exact Heq. }
  split; [|lia].
  replace (seq 0 n) with (seq 0 (length post) ++ seq (length post) (length pre))
    in Heq by (rewrite Hlen, seq_app; reflexivity).
  apply app_inj_1 in Heq as [_ Heq];
    [|rewrite length_seq, length_reverse; reflexivity].
  unfold range. replace (n - length post)%nat with (length pre) by lia.
  rewrite Heq. symmetry. apply reverse_involutive.
Qed.

(** C2.  In the deficit branch the balancer ends normally and its calls
    [tr] are these.  It walks the equipments from the lowest to the
    highest priority: the equipments called are, in this order, the
    unforced ones among the indices [len - 1] down to some [m].  Every
    call is a [decrease_power_by] of the excess that remains, and a call
    is followed by another one only if it returned an amount that leaves
    a positive excess: the pass stops as soon as a call returns [None]
    or the excess that remains is [<= 0]; otherwise it stops at the end
    of the list ([m = 0], every unforced equipment was called).  If every
    call returned a non-negative amount no greater than the amount
    requested, the power removed does not exceed the initial excess. *)
Theorem deficit_pass production consumption s r s' :
  consumption > production - MARGIN cfg ->
  balance cfg production consumption s = (r, s') ->
  let excess := consumption - (production - MARGIN cfg) in
  let es := equipments s in
  r = Ok tt /\
  exists tr m,
    calls s' = calls s ++ tr /\
    (m <= length es)%nat /\
    map call_index tr
    = List.filter (unforced es) (reverse (range m (length es))) /\
    (forall pre c post, tr = pre ++ c :: post ->
       is_decrease c = true /\
       call_watt c = excess - removed pre /\
       (post <> [] ->
        exists x, call_result c = Some x /\ 0 < excess - removed pre - x)) /\
    (m = 0%nat \/
     (exists tr0 j w, tr = tr0 ++ [Decrease j w None]) \/
     excess - removed tr <= 0) /\
    (Forall bounded_call tr -> removed tr <= excess).
Proof.
  intros Hgt Hrun excess es. unfold balance in Hrun.
  destruct (consumption >? production - MARGIN cfg) eqn:Hb.
  2:{ rewrite Z.gtb_ltb in Hb. apply Z.ltb_ge in Hb. lia. }
  unfold bind, get in Hrun.
  destruct (decrease_loop_run es (reverse (range 0 (length es))) excess s)
    as (tr & s1 & Hrun1 & Hc & Hd).
  { rewrite range_0, reverse_Permutation. apply NoDup_seq. }
  { intros j Hj. split; [reflexivity|].
    rewrite elem_of_reverse, range_0, elem_of_seq in Hj.
    apply lookup_lt_is_Some. lia. }
  fold es excess in Hrun. rewrite Hrun1 in Hrun. inversion Hrun; subst r s'.
  split; [reflexivity|].
  destruct (deficit_run_visits _ _ _ _ Hd) as (pre & post & Hsplit & Hm & Hstop).
  apply reverse_range_prefix in Hsplit as [-> Hlen].
  exists tr, (length post). split; [exact Hc|]. split; [exact Hlen|].
  split; [exact Hm|]. split; [eapply deficit_run_requests; eauto|].
  split.
  - destruct Hstop as [->|[Hn|Hx]]; [by left|right; by left|right; by right].
  - intros Hbd. eapply deficit_run_removed; eauto. unfold excess. lia.
Qed.

(** ** The recovery of power for a blocked equipment *)

Lemma after_call_is_Some s j e' c k :
  is_Some (equipments s !! k) -> is_Some (equipments (after_call s j e' c) !! k).
Proof.
  rewrite !lookup_lt_is_Some. cbn. rewrite length_insert. auto.
Qed.

Lemma sum_over_cons (f : nat -> Z) j js :
  sum_over f (j :: js) = f j + sum_over f js.
Proof. reflexivity. Qed.

Lemma freeable_loop_sum js : forall acc s,
  (forall j, j ∈ js -> is_Some (equipments s !! j)) ->
  freeable_loop js acc s
  = (Ok (acc + sum_over (confirmed_power (equipments s)) js), s).
Proof.
  induction js as [|j js IH]; intros acc s Hin.
  - cbn. rewrite Z.add_0_r. reflexivity.
  - rewrite freeable_loop_cons, sum_over_cons. unfold confirmed_power at 1.
    destruct (Hin j) as [o Ho]; [apply elem_of_cons; by left|]. rewrite Ho.
    assert (Hin' : forall k, k ∈ js -> is_Some (equipments s !! k)).
    { intros k Hk. apply Hin, elem_of_cons. by right. }
    destruct (is_forced o).
    + rewrite IH by exact Hin'. rewrite Z.add_0_l. reflexivity.
    + destruct (get_current_power o) as [p|]; rewrite IH by exact Hin'; cbn [default].
      * rewrite Z.add_assoc. reflexivity.
      * rewrite Z.add_0_l. reflexivity.
Qed.

Lemma recover_loop_run js : forall needed freed s r s',
  (forall j, j ∈ js -> is_Some (equipments s !! j)) ->
  recover_loop js needed freed s = (r, s') ->
  length (equipments s') = length (equipments s) /\
  exists tr,
    calls s' = calls s ++ tr /\
    Forall (fun c => is_decrease c = true /\ call_index c ∈ js) tr /\
    (r = Ok (freed + removed tr) \/
     r = Raise TypeError /\ exists tr0 j w, tr = tr0 ++ [Decrease j w None]) /\
    (0 < needed -> Forall bounded_call tr -> 0 <= removed tr <= needed).
Proof.
  induction js as [|j js IH]; intros needed freed s r s' Hin Hrun.
  - inversion Hrun; subst. split; [reflexivity|]. exists [].
    split; [symmetry; apply app_nil_r|]. split; [constructor|].
    split; [left; cbn; f_equal; lia|]. cbn. lia.
  - rewrite recover_loop_cons in Hrun.
    destruct (Hin j) as [o Ho]; [apply elem_of_cons; by left|].
    rewrite Ho in Hrun.
    assert (Hin' : forall k, k ∈ js -> is_Some (equipments s !! k)).
    { intros k Hk. apply Hin, elem_of_cons. by right. }
    assert (Hweak : forall tr,
              Forall (fun c => is_decrease c = true /\ call_index c ∈ js) tr ->
              Forall (fun c => is_decrease c = true /\ call_index c ∈ j :: js) tr).
    { intros tr Htr. eapply Forall_impl; [exact Htr|].
      intros c [Hd Hc]. split; [exact Hd|]. apply elem_of_cons. by right. }
    assert (Hhere : forall w x,
              is_decrease (Decrease j w x) = true /\
              call_index (Decrease j w x) ∈ j :: js).
    { intros w x. split; [reflexivity|]. apply elem_of_cons. by left. }
    destruct (is_forced o).
    { destruct (IH _ _ _ _ _ Hin' Hrun) as (Hlen & tr & Hc & Hall & Hr & Hb).
      split; [exact Hlen|]. exists tr. auto. }
    cbn zeta in Hrun.
    destruct (decrease_power_by needed o).1 as [x|] eqn:Hx.
    + destruct (needed - x <=? 0) eqn:Hle.
      * inversion Hrun; subst. split; [cbn; apply length_insert|].
        exists [Decrease j needed (Some x)].
        split; [reflexivity|]. split; [constructor; [apply Hhere|constructor]|].
        split; [left; cbn; f_equal; lia|].
        intros Hpos Hbd. apply Forall_cons in Hbd as [Hbd _].
        unfold bounded_call in Hbd. cbn in *. lia.
      * apply IH in Hrun as (Hlen & tr & Hc & Hall & Hr & Hb);
          [|intros k Hk; apply after_call_is_Some, Hin', Hk].
        split; [rewrite Hlen; cbn; apply length_insert|].
        exists (Decrease j needed (Some x) :: tr).
        split; [rewrite Hc; cbn; rewrite <- app_assoc; reflexivity|].
        split; [constructor; [apply Hhere|apply Hweak, Hall]|].
        apply Z.leb_gt in Hle.
        split.
        -- destruct Hr as [->|[-> (tr0 & j0 & w & ->)]].
           ++ left. cbn. f_equal. lia.
           ++ right. split; [reflexivity|].
              exists (Decrease j needed (Some x) :: tr0), j0, w. reflexivity.
        -- intros Hpos Hbd. apply Forall_cons in Hbd as [Hbd1 Hbd].
           unfold bounded_call in Hbd1. cbn in Hbd1.
           specialize (Hb ltac:(lia) Hbd). cbn. lia.
    + inversion Hrun; subst. split; [cbn; apply length_insert|].
      exists [Decrease j needed None].
      split; [reflexivity|]. split; [constructor; [apply Hhere|constructor]|].
      split; [right; split; [reflexivity|]; exists [], j, needed; reflexivity|].
      intros Hpos _. cbn. lia.
Qed.

Lemma elem_of_range k a b : k ∈ range a b <-> (a <= k < b)%nat.
Proof. unfold range. rewrite elem_of_seq. lia. Qed.

(** The excess pass calls [recover_and_retry] when, and only when, the
    equipment answers a negative amount; [needed] is then positive. *)
Lemma increase_loop_blocked len i ks available s e x :
  0 < available ->
  equipments s !! i = Some e ->
  is_forced e = false ->
  (increase_power_by available e).1 = Some x ->
  x < 0 ->
  increase_loop len (i :: ks) (Some available) s =
  match recover_and_retry len i available (- x)
          (after_call s i (increase_power_by available e).2
             (Increase i available (Some x))) with
  | (Ok a', s2) => increase_loop len ks a' s2
  | (Raise y, s2) => (Raise y, s2)
  end.
Proof.
  intros Hpos He Hf Hx Hneg. rewrite increase_loop_cons, He, Hf. cbn zeta.
  rewrite Hx.
  destruct (available <=? 0) eqn:Ha; [apply Z.leb_le in Ha; lia|].
  destruct (x =? 0) eqn:H0; [apply Z.eqb_eq in H0; lia|].
  destruct (x <? 0) eqn:Hlt; [reflexivity|apply Z.ltb_ge in Hlt; lia].
Qed.

(** C3 (amended).  When an increase was answered by [- needed], with
    [freeable] the confirmed power of the unforced equipments of strictly
    lower priority at that moment: if [freeable < needed] nothing is
    done; otherwise power is reclaimed by [decrease_power_by] calls [tr]
    on equipments of lower priority, and either one of these calls
    returns [None] and the recovery raises, or the increase is retried
    with [available + freed], [freed] being the power that the calls
    returned.  If every call returned a non-negative amount no greater
    than the amount requested, [freed] does not exceed [needed], hence
    not [freeable].  (The offer of the retry, [available + freed], is not
    bounded by [freeable].) *)
Theorem recovery_offer len i available needed s r s' :
  len = length (equipments s) ->
  (i < len)%nat ->
  0 < needed ->
  recover_and_retry len i available needed s = (r, s') ->
  (freeable (equipments s) i < needed -> r = Ok (Some available) /\ s' = s) /\
  (needed <= freeable (equipments s) i ->
   exists tr,
     Forall (fun c => is_decrease c = true /\ (i < call_index c < len)%nat) tr /\
     (r = Raise TypeError /\ calls s' = calls s ++ tr /\
      (exists tr0 j w, tr = tr0 ++ [Decrease j w None])
      \/
      exists ret,
        r = Ok ret /\
        calls s' = calls s ++ tr ++ [Increase i (available + removed tr) ret]) /\
     (Forall bounded_call tr ->
      0 <= removed tr <= needed /\ removed tr <= freeable (equipments s) i)).
Proof.
  intros Hlen Hi Hpos Hrun. rewrite recover_and_retry_eq in Hrun.
  assert (Hin : forall j, j ∈ range (S i) len -> is_Some (equipments s !! j)).
  { intros j Hj. apply elem_of_range in Hj. apply lookup_lt_is_Some. lia. }
  rewrite freeable_loop_sum in Hrun by exact Hin.
  rewrite Z.add_0_l in Hrun. unfold freeable. rewrite <- Hlen.
  set (fr := sum_over (confirmed_power (equipments s)) (range (S i) len)) in *.
  destruct (fr >=? needed) eqn:Hge.
  - apply Z.geb_le in Hge. split; [lia|]. intros _.
    destruct (recover_loop (reverse (range (S i) len)) needed 0 s)
      as [rr s1] eqn:Hrec.
    apply recover_loop_run in Hrec as (Hlen1 & tr & Hc & Hall & Hr & Hb).
    2:{ intros j Hj. apply Hin. apply elem_of_reverse. exact Hj. }
    exists tr. split.
    { eapply Forall_impl; [exact Hall|]. intros c [Hd Hc'].
      split; [exact Hd|]. rewrite elem_of_reverse, elem_of_range in Hc'. lia. }
    split.
    + destruct Hr as [->|[-> Hnone]].
      * right. rewrite call_increase_eq in Hrun.
        destruct (equipments s1 !! i) as [e|] eqn:He.
        2:{ apply lookup_ge_None in He. lia. }
        inversion Hrun; subst r s'. rewrite Z.add_0_l. eexists.
        split; [reflexivity|]. cbn. rewrite Hc, <- app_assoc. reflexivity.
      * left. inversion Hrun; subst r s'. auto.
    + intros Hbd. specialize (Hb Hpos Hbd). lia.
  - assert (fr < needed) by (rewrite Z.geb_leb in Hge; apply Z.leb_gt in Hge; lia).
    split; [|lia]. intros _. inversion Hrun; subst. auto.
Qed.

(** ** The evaluation *)

Lemma guards_first t g :
  last_evaluation_date g = None -> guards cfg t g = (Ok true, g).
Proof. intros Hl. unfold guards, bind, get. rewrite Hl. reflexivity. Qed.

Lemma guards_same_day t g last :
  last_evaluation_date g = Some last ->
  day cfg last = day cfg t ->
  guards cfg t g
  = (Ok (negb (Qlt_bool (t - last) (inject_Z (EVALUATION_PERIOD cfg)))), g).
Proof.
  intros Hl Hd. unfold guards, bind, get. rewrite Hl.
  apply Z.eqb_eq in Hd. rewrite Hd. cbn.
  destruct (Qlt_bool (t - last) (inject_Z (EVALUATION_PERIOD cfg)));
    reflexivity.
Qed.

Lemma guards_proceeds t g : proceeds cfg t g -> guards cfg t g = (Ok true, g).
Proof.
  unfold proceeds. destruct (last_evaluation_date g) as [last|] eqn:Hl.
  - intros [Hd Hn]. rewrite (guards_same_day t g last Hl Hd).
    destruct (Qlt_bool _ _) eqn:Hb; [|reflexivity].
    apply Qlt_bool_iff in Hb. contradiction.
  - intros _. apply guards_first. exact Hl.
Qed.

Lemma guards_rate_limited t g :
  rate_limited cfg t g -> guards cfg t g = (Ok false, g).
Proof.
  unfold rate_limited. destruct (last_evaluation_date g) as [last|] eqn:Hl;
    [|contradiction].
  intros [Hd Hlt]. rewrite (guards_same_day t g last Hl Hd).
  apply Qlt_bool_iff in Hlt. rewrite Hlt. reflexivity.
Qed.

(** Line 214 raises whatever [CLOUD_forecast] holds: the right operand
    of the last [+] is a number and the left one a string. *)
Lemma clouds_production_line_raises g :
  clouds_production_line g = Raise TypeError.
Proof.
  unfold clouds_production_line. destruct (CLOUD_forecast g); reflexivity.
Qed.

(** Hence the processing of a day rollover stops at line 214, after
    [ECS_energy_today] has been assigned. *)
Lemma day_rollover_raises t g :
  day_rollover cfg t g =
  match equipments (equip g) !! water_heater cfg with
  | Some w => (Raise TypeError, set_ECS_energy_today (get_energy w) g)
  | None => (Raise AttributeError, g)
  end.
Proof.
  unfold day_rollover, bind at 1, the_water_heater.
  destruct (equipments (equip g) !! water_heater cfg) as [w|]; [|reflexivity].
  unfold bind, modify, get, lift_res.
  rewrite clouds_production_line_raises. reflexivity.
Qed.

Lemma guards_rollover t g :
  rollover_tick cfg t g ->
  guards cfg t g =
  match equipments (equip g) !! water_heater cfg with
  | Some w => (Raise TypeError, set_ECS_energy_today (get_energy w) g)
  | None => (Raise AttributeError, g)
  end.
Proof.
  unfold rollover_tick. destruct (last_evaluation_date g) as [last|] eqn:Hl;
    [|contradiction].
  intros Hd. unfold guards, bind at 1, get. rewrite Hl.
  apply Z.eqb_neq in Hd. rewrite Hd. cbn [negb]. unfold bind.
  rewrite day_rollover_raises.
  destruct (equipments (equip g) !! water_heater cfg); reflexivity.
Qed.

Lemma report_run t production consumption g :
  bind (report_injection cfg production consumption)
       (report_status cfg t production consumption) g
  = (Ok tt, reported cfg t production consumption g).
Proof.
  unfold report_injection, report_status, reported, bind, publish, modify,
    get, ret, set_last_injection.
  destruct (consumption - production <? 0); cbn.
  - rewrite <- app_assoc. reflexivity.
  - destruct (last_injection g =? 0); cbn.
    + reflexivity.
    + rewrite <- app_assoc. reflexivity.
Qed.

Lemma evaluate_body_proceeds t g :
  proceeds cfg t g ->
  evaluate_body cfg t g =
  let g1 := set_last_evaluation_date (Some t) g in
  match power_production g, power_consumption g with
  | Some production, Some consumption =>
      match balance cfg production consumption (equip g) with
      | (Ok _, st) =>
          (Ok tt, reported cfg t production consumption (set_equip st g1))
      | (Raise x, st) => (Raise x, set_equip st g1)
      end
  | _, _ => (Ok tt, g1)
  end.
Proof.
  intros Hp. unfold evaluate_body, bind at 1.
  rewrite (guards_proceeds t g Hp).
  unfold bind at 1, modify. unfold bind at 1, get. cbn.
  destruct (power_production g) as [production|]; [|reflexivity].
  destruct (power_consumption g) as [consumption|]; [|reflexivity].
  unfold bind at 1, on_equipments. cbn.
  destruct (balance cfg production consumption (equip g)) as [[[]|x] st];
    [|reflexivity].
  apply report_run.
Qed.

Lemma evaluate_body_rate_limited t g :
  rate_limited cfg t g -> evaluate_body cfg t g = (Ok tt, g).
Proof.
  intros Hr. unfold evaluate_body, bind.
  rewrite (guards_rate_limited t g Hr). reflexivity.
Qed.

Lemma evaluate_body_rollover t g :
  rollover_tick cfg t g ->
  evaluate_body cfg t g =
  match equipments (equip g) !! water_heater cfg with
  | Some w => (Raise TypeError, set_ECS_energy_today (get_energy w) g)
  | None => (Raise AttributeError, g)
  end.
Proof.
  intros Hr. unfold evaluate_body, bind.
  rewrite (guards_rollover t g Hr).
  destruct (equipments (equip g) !! water_heater cfg); reflexivity.
Qed.

(** The three kinds of ticks. *)
Lemma tick_cases t g :
  rollover_tick cfg t g \/ rate_limited cfg t g \/ proceeds cfg t g.
Proof.
  unfold rollover_tick, rate_limited, proceeds.
  destruct (last_evaluation_date g) as [last|]; [|auto].
  destruct (decide (day cfg last = day cfg t)) as [Hd|Hd]; [|auto].
  destruct (Qlt_le_dec (t - last) (inject_Z (EVALUATION_PERIOD cfg)))
    as [Hlt|Hle]; [auto|].
  right; right. split; [exact Hd|]. apply Qle_not_lt. exact Hle.
Qed.

(** C8.  A request made the same calendar day as the previous
    evaluation and less than [EVALUATION_PERIOD] seconds after it is
    skipped entirely: the body returns at once and the whole state (the
    equipments, every field of the regulation state with
    [last_evaluation_date], the energy counters, the messages
    published) is the same.  When there is no previous evaluation the
    guard is bypassed: the evaluation goes on and records its
    timestamp. *)
Theorem rate_limit_guard t g :
  (rate_limited cfg t g ->
   evaluate_body cfg t g = (Ok tt, g) /\ evaluate cfg t g = g) /\
  (last_evaluation_date g = None ->
   last_evaluation_date (evaluate cfg t g) = Some t).
Proof.
  split.
  - intros Hr. unfold evaluate. rewrite (evaluate_body_rate_limited t g Hr).
    split; reflexivity.
  - intros Hl. unfold evaluate. rewrite evaluate_body_proceeds.
    2:{ unfold proceeds. rewrite Hl. exact I. }
    cbn zeta.
    destruct (power_production g) as [production|]; [|reflexivity].
    destruct (power_consumption g) as [consumption|]; [|reflexivity].
    destruct (balance cfg production consumption (equip g)) as [[[]|x] st];
      reflexivity.
Qed.

(** ** The fallback and the energy counters *)







Lemma low_energy_fallback_counters g r g' :
  low_energy_fallback cfg g = (r, g') ->
  ECS_energy_today g' = ECS_energy_today g /\
  (ECS_energy_yesterday g' = ECS_energy_yesterday g \/
   ECS_energy_yesterday g' = ECS_energy_today g).
Proof.
  unfold low_energy_fallback, bind at 1, the_water_heater.
  destruct (equipments (equip g) !! water_heater cfg) as [w|].
  2:{ intros Hrun; inversion Hrun; subst. auto. }
  unfold bind at 1, get. cbv beta iota.
  case_test Htest.
  2:{ intros Hrun; inversion Hrun; subst. auto. }
  unfold bind, lift_res, py_div, modify.
  destruct (Qeq_bool (py_float (max_power w)) 0);
    intros Hrun; inversion Hrun; subst; cbn; auto.
Qed.

(** C4 (amended).  On a day rollover [energy_today] is reset from the
    accumulator of the designated load, before the fallback is
    considered.  [energy_yesterday] does not receive the previous value
    of [energy_today]: after the evaluation it holds what it held
    before, or the new [energy_today].  Its only assignment is in the
    fallback, which leaves [energy_today] as it is and gives
    [energy_yesterday], if anything, the value of [energy_today]. *)
Theorem day_rollover_energy t g w :
  rollover_tick cfg t g ->
  equipments (equip g) !! water_heater cfg = Some w ->
  ECS_energy_today (evaluate cfg t g) = get_energy w /\
  (ECS_energy_yesterday (evaluate cfg t g) = ECS_energy_yesterday g \/
   ECS_energy_yesterday (evaluate cfg t g) = get_energy w) /\
  (forall g0 r g1,
     low_energy_fallback cfg g0 = (r, g1) ->
     ECS_energy_today g1 = ECS_energy_today g0 /\
     (ECS_energy_yesterday g1 = ECS_energy_yesterday g0 \/
      ECS_energy_yesterday g1 = ECS_energy_today g0)).
Proof.
  intros Hr Hw. unfold evaluate.
  rewrite (evaluate_body_rollover t g Hr), Hw. cbn.
  split; [reflexivity|]. split; [left; reflexivity|].
  apply low_energy_fallback_counters.
Qed.

(** With a broker that accepts every message, the evaluation is the
    one of [evaluate]. *)
Lemma evaluate_body_through_reliable t g :
  evaluate_body_through cfg reliable t g = evaluate_body cfg t g.
Proof. reflexivity. Qed.

Lemma evaluate_through_reliable t g :
  evaluate_through cfg reliable t g = (Ok tt, evaluate cfg t g).
Proof.
  unfold evaluate_through, try_except, evaluate.
  rewrite evaluate_body_through_reliable.
  destruct (evaluate_body cfg t g) as [[[]|x] g']; reflexivity.
Qed.

(** The runs of lines 316-348 that fail: the broker has refused the
    Domoticz message, and [last_injection] is the one of before, or it
    has refused the status, and [last_injection] is the injection. *)
Lemma report_through_raise broker t production consumption g x g' :
  bind (report_injection_through cfg broker production consumption)
       (report_status_through cfg broker t production consumption) g
  = (Raise x, g') ->
  g' = g \/
  g' = set_last_injection (Z.min (consumption - production) 0) g' /\
  last_evaluation_date g' = last_evaluation_date g /\
  power_production g' = power_production g /\
  power_consumption g' = power_consumption g.
Proof.
  unfold report_injection_through, report_status_through, publish_through.
  unfold bind at 1.
  destruct (consumption - production <? 0) eqn:Hneg.
  - apply Z.ltb_lt in Hneg. unfold bind at 1.
    destruct (broker _) as [y|].
    + unfold raise. intros Hrun; inversion Hrun; subst. left. reflexivity.
    + unfold publish, modify, bind, get, ret. cbn.
      destruct (broker _) as [y|]; [|discriminate].
      unfold raise. intros Hrun; inversion Hrun; subst. right. cbn.
      rewrite Z.min_l by lia. repeat split; reflexivity.
  - apply Z.ltb_ge in Hneg. unfold bind at 1, get. unfold bind at 1.
    destruct (last_injection g =? 0) eqn:Hz.
    + unfold ret, modify, bind, get. cbn.
      destruct (broker _) as [y|]; [|discriminate].
      unfold raise. intros Hrun; inversion Hrun; subst. right. cbn.
      rewrite Z.min_r by lia. repeat split; reflexivity.
    + destruct (broker _) as [y|].
      * unfold raise. intros Hrun; inversion Hrun; subst. left. reflexivity.
      * unfold publish, modify, bind, get, ret. cbn.
        destruct (broker _) as [y|]; [|discriminate].
        unfold raise. intros Hrun; inversion Hrun; subst. right. cbn.
        rewrite Z.min_r by lia. repeat split; reflexivity.
Qed.

(** C5 (amended).  A failure of the body of [evaluate], in the rollover
    block, in the balancing or in the publishing, does not propagate:
    [evaluate] returns normally, with the state reached at the failure.
    The Regulation State is not corrupted: the two readings are kept,
    and [last_injection] and [last_evaluation_date] each hold the value
    of before or the one that this evaluation assigns.  When the tick
    is not a day rollover, [last_evaluation_date] is already the
    timestamp of the tick. *)
Theorem failure_is_swallowed broker t g x g' :
  evaluate_body_through cfg broker t g = (Raise x, g') ->
  evaluate_through cfg broker t g = (Ok tt, g') /\
  power_production g' = power_production g /\
  power_consumption g' = power_consumption g /\
  (last_injection g' = last_injection g \/
   exists production consumption,
     power_production g = Some production /\
     power_consumption g = Some consumption /\
     last_injection g' = Z.min (consumption - production) 0) /\
  (last_evaluation_date g' = last_evaluation_date g \/
   last_evaluation_date g' = Some t) /\
  (~ rollover_tick cfg t g -> last_evaluation_date g' = Some t).
Proof.
  intros Hrun.
  split; [unfold evaluate_through, try_except; rewrite Hrun; reflexivity|].
  destruct (tick_cases t g) as [Hr|[Hl|Hp]].
  - unfold evaluate_body_through, bind at 1 in Hrun.
    rewrite (guards_rollover t g Hr) in Hrun.
    destruct (equipments (equip g) !! water_heater cfg);
      inversion Hrun; subst; cbn;
      (split; [reflexivity|]); (split; [reflexivity|]);
      (split; [left; reflexivity|]); (split; [left; reflexivity|]);
      intros Hn; contradiction.
  - unfold evaluate_body_through, bind at 1 in Hrun.
    rewrite (guards_rate_limited t g Hl) in Hrun. discriminate.
  - unfold evaluate_body_through, bind at 1 in Hrun.
    rewrite (guards_proceeds t g Hp) in Hrun.
    unfold bind at 1, modify in Hrun. unfold bind at 1, get in Hrun.
    cbn in Hrun.
    destruct (power_production g) as [production|] eqn:Hprod; [|discriminate].
    destruct (power_consumption g) as [consumption|] eqn:Hcons;
      [|discriminate].
    unfold bind at 1, on_equipments in Hrun. cbn in Hrun.
    destruct (balance cfg production consumption (equip g)) as [[[]|y] st].
    + apply report_through_raise in Hrun.
      destruct Hrun as [->|(Hinj & Hdate & Hp' & Hc')]; cbn.
      * rewrite Hprod, Hcons.
        split; [reflexivity|]. split; [reflexivity|].
        split; [left; reflexivity|]. split; [right; reflexivity|].
        intros _. reflexivity.
      * cbn in Hdate, Hp', Hc'. rewrite Hp', Hc', Hdate, Hprod, Hcons.
        split; [reflexivity|]. split; [reflexivity|].
        split.
        { right. exists production, consumption.
          split; [reflexivity|]. split; [reflexivity|].
          rewrite Hinj. reflexivity. }
        split; [right; reflexivity|]. intros _. reflexivity.
    + inversion Hrun; subst; cbn. rewrite Hprod, Hcons.
      split; [reflexivity|]. split; [reflexivity|].
      split; [left; reflexivity|]. split; [right; reflexivity|].
      intros _. reflexivity.
Qed.

(** The evaluations that do not come to lines 316-348 send nothing and
    leave [last_injection] as it was. *)
Lemma evaluate_without_report t g :
  ~ proceeds cfg t g \/
  power_production g = None \/ power_consumption g = None \/
  (exists production consumption x st,
     power_production g = Some production /\
     power_consumption g = Some consumption /\
     balance cfg production consumption (equip g) = (Raise x, st)) ->
  published (evaluate cfg t g) = published g /\
  last_injection (evaluate cfg t g) = last_injection g.
Proof.
  intros Hcase. unfold evaluate.
  destruct (tick_cases t g) as [Hr|[Hl|Hp]].
  - rewrite (evaluate_body_rollover t g Hr).
    destruct (equipments (equip g) !! water_heater cfg); split; reflexivity.
  - rewrite (evaluate_body_rate_limited t g Hl). split; reflexivity.
  - rewrite (evaluate_body_proceeds t g Hp). cbn zeta.
    destruct Hcase as [Hn|[Hprod|[Hcons|Hbal]]].
    + contradiction.
    + rewrite Hprod. split; reflexivity.
    + rewrite Hcons. destruct (power_production g); split; reflexivity.
    + destruct Hbal as (production & consumption & x & st & -> & -> & ->).
      split; reflexivity.
Qed.

(** C6 (amended).  The injection message is sent by the evaluations
    that come to lines 316-328: those that pass the guards, with both
    readings, and whose balancing does not fail.  There the injection is
    [consumption - production] when that is negative, and it is then
    sent to Domoticz every time; when [consumption - production >= 0]
    the injection is 0, and the message (with the value 0) is sent only
    if [last_injection] was not 0.  [last_injection] then holds the
    injection, and the status message follows.  Every other evaluation
    sends nothing and leaves [last_injection] as it was, whatever
    [consumption - production] is. *)
Theorem injection_message t g :
  let g' := evaluate cfg t g in
  let domoticz v :=
    Message TOPIC_DOMOTICZ_IN (Domoticz (IDX_INJECTION cfg) 0 v) in
  (forall production consumption st,
     proceeds cfg t g ->
     power_production g = Some production ->
     power_consumption g = Some consumption ->
     balance cfg production consumption (equip g) = (Ok tt, st) ->
     let status :=
       Message (TOPIC_STATUS cfg)
         (Status t consumption production (last_injection g')
            (map status_of (equipments st))) in
     (consumption - production < 0 ->
      last_injection g' = consumption - production /\
      published g'
      = published g ++ [domoticz (consumption - production); status]) /\
     (0 <= consumption - production ->
      last_injection g' = 0 /\
      (last_injection g = 0 -> published g' = published g ++ [status]) /\
      (last_injection g <> 0 ->
       published g' = published g ++ [domoticz 0; status]))) /\
  (~ proceeds cfg t g \/
   power_production g = None \/ power_consumption g = None \/
   (exists production consumption x st,
      power_production g = Some production /\
      power_consumption g = Some consumption /\
      balance cfg production consumption (equip g) = (Raise x, st)) ->
   published g' = published g /\ last_injection g' = last_injection g).
Proof.
  cbv zeta. split; [|apply evaluate_without_report].
  intros production consumption st Hp Hprod Hcons Hbal. unfold evaluate.
  rewrite (evaluate_body_proceeds t g Hp). cbn zeta.
  rewrite Hprod, Hcons, Hbal. unfold reported. cbn.
  split.
  - intros Hneg. apply Z.ltb_lt in Hneg. rewrite Hneg. split; reflexivity.
  - intros Hpos. apply Z.ltb_ge in Hpos. rewrite Hpos.
    split; [reflexivity|]. split.
    + intros ->. reflexivity.
    + intros Hne. apply Z.eqb_neq in Hne. rewrite Hne. reflexivity.
Qed.

(** ** A [None] in the recovery loop *)

Lemma run_shape_nil {A} (r : res A) : run_shape r [].
Proof. left. constructor. Qed.

Lemma run_shape_app {A} (r : res A) tr1 tr2 :
  confirmed tr1 -> run_shape r tr2 -> run_shape r (tr1 ++ tr2).
Proof.
  intros H1 [H2|(Hr & tr0 & j & w & -> & H0)].
  - left. apply Forall_app. split; assumption.
  - right. split; [exact Hr|]. exists (tr1 ++ tr0), j, w.
    split; [apply app_assoc|]. apply Forall_app. split; assumption.
Qed.

Lemma run_shape_ok {A B} (a : A) (r : res B) tr :
  run_shape (Ok a) tr -> run_shape r tr.
Proof.
  intros [Hc|(Hr & _)]; [left; exact Hc|discriminate].
Qed.

Lemma run_shape_raise {A B} (x : exn) tr :
  run_shape (Raise x : res A) tr -> run_shape (Raise x : res B) tr.
Proof.
  intros [Hc|(Hr & Hrest)]; [left; exact Hc|].
  right. split; [congruence|exact Hrest].
Qed.

Lemma confirmed_one_some j w x : confirmed [Decrease j w (Some x)].
Proof. constructor; [intros _; eexists; reflexivity|constructor]. Qed.

Lemma confirmed_one_increase j w x : confirmed [Increase j w x].
Proof. constructor; [discriminate|constructor]. Qed.

Lemma recover_loop_abort js : forall needed freed s r s',
  recover_loop js needed freed s = (r, s') ->
  exists tr, calls s' = calls s ++ tr /\ run_shape r tr.
Proof.
  induction js as [|j js IH]; intros needed freed s r s' Hrun.
  - inversion Hrun; subst. exists []. split; [symmetry; apply app_nil_r|].
    apply run_shape_nil.
  - rewrite recover_loop_cons in Hrun.
    destruct (equipments s !! j) as [o|].
    2:{ inversion Hrun; subst. exists [].
        split; [symmetry; apply app_nil_r|apply run_shape_nil]. }
    destruct (is_forced o); [eauto|].
    cbn zeta in Hrun.
    destruct (decrease_power_by needed o).1 as [x|].
    + destruct (needed - x <=? 0).
      * inversion Hrun; subst. exists [Decrease j needed (Some x)].
        split; [reflexivity|]. left. apply confirmed_one_some.
      * apply IH in Hrun as (tr & Hc & Hs).
        exists ([Decrease j needed (Some x)] ++ tr).
        split; [rewrite Hc; cbn; rewrite <- app_assoc; reflexivity|].
        apply run_shape_app; [apply confirmed_one_some|exact Hs].
    + inversion Hrun; subst. exists [Decrease j needed None].
      split; [reflexivity|]. right. split; [reflexivity|].
      exists [], j, needed. split; [reflexivity|constructor].
Qed.

Lemma call_increase_confirmed i watt s r s' :
  call_increase i watt s = (r, s') ->
  exists tr, calls s' = calls s ++ tr /\ confirmed tr.
Proof.
  rewrite call_increase_eq.
  destruct (equipments s !! i) as [e|]; intros Hrun; inversion Hrun; subst.
  - eexists [_]. split; [reflexivity|]. apply confirmed_one_increase.
  - exists []. split; [symmetry; apply app_nil_r|constructor].
Qed.

Lemma recover_and_retry_abort len i available needed s r s' :
  recover_and_retry len i available needed s = (r, s') ->
  exists tr, calls s' = calls s ++ tr /\ run_shape r tr.
Proof.
  rewrite recover_and_retry_eq.
  pose proof (freeable_loop_state (range (S i) len) 0 s) as Hst.
  destruct (freeable_loop (range (S i) len) 0 s) as [[fr|x] s0];
    cbn in Hst; subst s0.
  2:{ intros Hrun; inversion Hrun; subst. exists [].
      split; [symmetry; apply app_nil_r|apply run_shape_nil]. }
  destruct (fr >=? needed).
  2:{ intros Hrun; inversion Hrun; subst. exists [].
      split; [symmetry; apply app_nil_r|apply run_shape_nil]. }
  destruct (recover_loop (reverse (range (S i) len)) needed 0 s)
    as [[freed|x] s1] eqn:Hrec;
    apply recover_loop_abort in Hrec as (tr1 & Hc1 & Hs1); intros Hrun.
  - apply call_increase_confirmed in Hrun as (tr2 & Hc2 & Hs2).
    exists (tr1 ++ tr2). split; [rewrite Hc2, Hc1; symmetry; apply app_assoc|].
    destruct Hs1 as [Hs1|(Hr & _)]; [|discriminate].
    left. apply Forall_app. split; assumption.
  - inversion Hrun; subst. exists tr1.
    split; [assumption|]. eapply run_shape_raise; eassumption.
Qed.

Lemma increase_loop_abort len ks : forall a s r s',
  increase_loop len ks a s = (r, s') ->
  exists tr, calls s' = calls s ++ tr /\ run_shape r tr.
Proof.
  assert (Hnil : forall s (r : res unit),
            exists tr, calls s = calls s ++ tr /\ run_shape r tr).
  { intros s r. exists []. split; [symmetry; apply app_nil_r|].
    apply run_shape_nil. }
  induction ks as [|i ks IH]; intros a s r s' Hrun.
  - inversion Hrun; subst. apply Hnil.
  - rewrite increase_loop_cons in Hrun.
    destruct a as [available|]; [|inversion Hrun; subst; apply Hnil].
    destruct (available <=? 0); [inversion Hrun; subst; apply Hnil|].
    destruct (equipments s !! i) as [e|]; [|inversion Hrun; subst; apply Hnil].
    destruct (is_forced e); [eauto|].
    cbn zeta in Hrun.
    set (c := Increase i available (increase_power_by available e).1) in *.
    assert (Hone : forall r0 : res unit,
              exists tr, calls (after_call s i (increase_power_by available e).2 c)
                         = calls s ++ tr /\ run_shape r0 tr).
    { intros r0. exists [c]. split; [reflexivity|]. left.
      apply confirmed_one_increase. }
    assert (Hcont : forall tr r0 s0,
              calls s0
              = calls (after_call s i (increase_power_by available e).2 c) ++ tr ->
              run_shape r0 tr ->
              exists tr', calls s0 = calls s ++ tr' /\ run_shape (A := unit) r0 tr').
    { intros tr r0 s0 Hc Hs. exists ([c] ++ tr).
      split; [rewrite Hc; cbn; rewrite <- app_assoc; reflexivity|].
      apply run_shape_app; [apply confirmed_one_increase|exact Hs]. }
    destruct (increase_power_by available e).1 as [x|];
      [|inversion Hrun; subst; apply Hone].
    destruct (x =? 0); [inversion Hrun; subst; apply Hone|].
    destruct (x <? 0).
    + destruct (recover_and_retry len i available (- x) _)
        as [[a'|y] s2] eqn:Hrec;
        apply recover_and_retry_abort in Hrec as (tr1 & Hc1 & Hs1).
      * apply IH in Hrun as (tr2 & Hc2 & Hs2).
        destruct Hs1 as [Hs1|(Hr & _)]; [|discriminate].
        eapply (Hcont (tr1 ++ tr2));
          [rewrite Hc2, Hc1; symmetry; apply app_assoc|].
        apply run_shape_app; assumption.
      * inversion Hrun; subst. eapply Hcont; [exact Hc1|].
        eapply run_shape_raise; eassumption.
    + apply IH in Hrun as (tr2 & Hc2 & Hs2). eapply Hcont; eauto.
Qed.

(** C10.  In the excess branch a [decrease_power_by] is a call of the
    recovery loop.  On a tick at which the balancer runs, if one of them
    returns [None], the balancer raises [TypeError] at once (the call is
    the last one of the run and the calls before it returned an amount),
    and the evaluation ends there: its state is the one reached at the
    failure, with the decreases already applied and the timestamp of the
    tick, and neither the injection nor the status is published. *)
Theorem recovery_none_aborts t g production consumption r st tr j w :
  proceeds cfg t g ->
  power_production g = Some production ->
  power_consumption g = Some consumption ->
  consumption <= production - MARGIN cfg ->
  balance cfg production consumption (equip g) = (r, st) ->
  calls st = calls (equip g) ++ tr ->
  Decrease j w None ∈ tr ->
  r = Raise TypeError /\
  (exists tr0, tr = tr0 ++ [Decrease j w None] /\ confirmed tr0) /\
  evaluate cfg t g = set_equip st (set_last_evaluation_date (Some t) g) /\
  published (evaluate cfg t g) = published g /\
  last_injection (evaluate cfg t g) = last_injection g.
Proof.
  intros Hp Hprod Hcons Hle Hbal Hc Hin.
  assert (Hshape : run_shape r tr).
  { unfold balance in Hbal.
    destruct (consumption >? production - MARGIN cfg) eqn:Hgt.
    { rewrite Z.gtb_ltb in Hgt. apply Z.ltb_lt in Hgt. lia. }
    destruct (production - MARGIN cfg - consumption <? BALANCE_THRESHOLD cfg).
    - inversion Hbal; subst.
      rewrite <- (app_nil_r (calls (equip g))) in Hc at 1.
      apply app_inv_head in Hc. subst tr. apply run_shape_nil.
    - unfold bind, get in Hbal.
      apply increase_loop_abort in Hbal as (tr' & Hc' & Hs).
      rewrite Hc in Hc'. apply app_inv_head in Hc'. subst tr'. exact Hs. }
  assert (Hbad : forall tr0, confirmed tr0 -> Decrease j w None ∈ tr0 -> False).
  { intros tr0 Hconf Hel. unfold confirmed in Hconf.
    rewrite Forall_forall in Hconf.
    destruct (Hconf _ Hel eq_refl) as [x Hx]. discriminate. }
  destruct Hshape as [Hconf|(-> & tr0 & j0 & w0 & -> & Hconf)].
  { exfalso. eauto. }
  apply elem_of_app in Hin as [Hin|Hin]; [exfalso; eauto|].
  apply list_elem_of_singleton in Hin. inversion Hin; subst j0 w0.
  split; [reflexivity|]. split; [eauto|].
  unfold evaluate. rewrite (evaluate_body_proceeds t g Hp). cbn zeta.
  rewrite Hprod, Hcons, Hbal. cbn. repeat split; reflexivity.
Qed.

(** C9.  When [0 <= (production - MARGIN cfg) - consumption <
    BALANCE_THRESHOLD] the balancer takes the balanced branch: the run
    ends normally, the store is the same (no equipment state changes,
    no forced state changes) and no power call is made.  In particular
    this is so when the consumption is exactly [production - MARGIN] and
    the threshold is positive. *)
Theorem balanced_branch_no_action production consumption s :
  (0 <= production - MARGIN cfg - consumption < BALANCE_THRESHOLD cfg ->
   balance cfg production consumption s = (Ok tt, s)) /\
  (consumption = production - MARGIN cfg -> 0 < BALANCE_THRESHOLD cfg ->
   balance cfg production consumption s = (Ok tt, s)).
Proof.
  assert (Hgen : 0 <= production - MARGIN cfg - consumption < BALANCE_THRESHOLD cfg ->
                 balance cfg production consumption s = (Ok tt, s)).
  { intros [Hlo Hhi]. unfold balance.
    destruct (consumption >? production - MARGIN cfg) eqn:Hgt.
    - rewrite Z.gtb_ltb in Hgt. apply Z.ltb_lt in Hgt. lia.
    - destruct (production - MARGIN cfg - consumption <? BALANCE_THRESHOLD cfg) eqn:Hlt.
      + reflexivity.
      + apply Z.ltb_ge in Hlt. lia. }
  split; [exact Hgen|].
  intros -> Hpos. apply Hgen. lia.
Qed.

End Properties.

(** * The properties at work in the house *)

Section Runs.

Import Loads House.

(** C1 at work: the pump is forced; the charger is blocked, power is
    recovered from the heater behind the pump, and the pump is left as it
    is. *)
Lemma forced_equipment_untouched_witness :
  equipments (Store [charger; pump; heater] []) !! 1%nat = Some pump /\
  is_forced pump = true /\
  equipments (balance settings 2100 1000
                (Store [charger; pump; heater] [])).2 !! 1%nat = Some pump /\
  calls (balance settings 2100 1000 (Store [charger; pump; heater] [])).2
  = [Increase 0 1000 (Some (-500)); Decrease 2 500 (Some 500);
     Increase 0 1500 (Some 0)].
Proof.
  split; [reflexivity|]. split; [reflexivity|].
  split; [|reflexivity].
  exact (proj1 (forced_equipment_untouched settings 2100 1000
                  (Store [charger; pump; heater] []) _ _ 1%nat pump
                  eq_refl eq_refl (surjective_pairing _))).
Defined.

(** C2 at work, on scenario 1 of the spec: 600 W to shed, the load of
    lowest priority gives them all and the other one is not called. *)
Lemma deficit_pass_witness :
  3500 > 3000 - MARGIN settings /\
  balance settings 3000 3500 (Store [load_a; load_b] [])
  = (Ok tt, Store [load_a; set_power 200 load_b] [Decrease 1 600 (Some 600)])
  /\
  exists tr m,
    [Decrease 1 600 (Some 600)] = [] ++ tr /\
    (m <= 2)%nat /\
    map call_index tr
    = List.filter (unforced [load_a; load_b]) (reverse (range m 2)) /\
    (Forall bounded_call tr -> removed tr <= 600).
Proof.
  assert (Hgt : 3500 > 3000 - MARGIN settings) by (vm_compute; reflexivity).
  assert (Hrun : balance settings 3000 3500 (Store [load_a; load_b] [])
                 = (Ok tt, Store [load_a; set_power 200 load_b]
                             [Decrease 1 600 (Some 600)]))
    by reflexivity.
  split; [exact Hgt|]. split; [exact Hrun|].
  destruct (deficit_pass settings 3000 3500 _ _ _ Hgt Hrun)
    as (_ & tr & m & Hc & Hm & Hwalk & _ & _ & Hsum).
  exists tr, m. auto.
Defined.

(** C3 at work: the charger lacks 500 W, the heater uses 600 W. *)
Lemma recovery_offer_witness :
  (2 = length (equipments (Store [charger; heater] [])))%nat /\
  (0 < 2)%nat /\
  0 < 500 /\
  recover_and_retry 2 0 1000 500 (Store [charger; heater] [])
  = (Ok (Some 0),
     Store [set_power 1500 charger; set_power 100 heater]
       [Decrease 1 500 (Some 500); Increase 0 1500 (Some 0)]) /\
  500 <= freeable [charger; heater] 0 /\
  exists tr,
    (Forall bounded_call tr ->
     0 <= removed tr <= 500 /\ removed tr <= freeable [charger; heater] 0).
Proof.
  assert (Hrun : recover_and_retry 2 0 1000 500 (Store [charger; heater] [])
                 = (Ok (Some 0),
                    Store [set_power 1500 charger; set_power 100 heater]
                      [Decrease 1 500 (Some 500); Increase 0 1500 (Some 0)]))
    by reflexivity.
  assert (Hfree : 500 <= freeable [charger; heater] 0)
    by (vm_compute; discriminate).
  split; [reflexivity|]. split; [lia|]. split; [lia|]. split; [exact Hrun|].
  split; [exact Hfree|].
  destruct (recovery_offer 2 0 1000 500 (Store [charger; heater] []) _ _
              eq_refl ltac:(lia) ltac:(lia) Hrun)
    as [_ Hrec].
  destruct (Hrec Hfree) as (tr & _ & _ & Hb). exists tr. exact Hb.
Defined.

(** C4 at work: the day after, [energy_today] is the 250 Ws of the
    heater. *)
Lemma day_rollover_energy_witness :
  rollover_tick settings t_next_day (evening [heater]) /\
  equipments (equip (evening [heater])) !! water_heater settings = Some heater /\
  ECS_energy_today (evaluate settings t_next_day (evening [heater]))
  = get_energy heater.
Proof.
  assert (Hr : rollover_tick settings t_next_day (evening [heater]))
    by (vm_compute; discriminate).
  split; [exact Hr|]. split; [reflexivity|].
  exact (proj1 (day_rollover_energy settings t_next_day (evening [heater])
                  heater Hr eq_refl)).
Defined.

(** C5 at work: at the first tick the Domoticz message is sent and the
    status cannot be; [evaluate] returns, [last_injection] holds the
    injection and [last_evaluation_date] the timestamp of the tick. *)
Lemma failure_is_swallowed_witness :
  evaluate_body_through settings no_status t_later (first_tick [heater])
  = (Raise TypeError,
     (evaluate_body_through settings no_status t_later
        (first_tick [heater])).2) /\
  ~ rollover_tick settings t_later (first_tick [heater]) /\
  evaluate_through settings no_status t_later (first_tick [heater])
  = (Ok tt,
     {| last_evaluation_date := Some t_later;
        last_injection := 0;
        power_production := Some 3000;
        power_consumption := Some 3500;
        ECS_energy_yesterday := 0;
        ECS_energy_today := 0;
        CLOUD_forecast := PyNum 999;
        equip := Store [set_power 0 heater] [Decrease 0 600 (Some 600)];
        published := [Message "domoticz/in" (Domoticz "7" 0 0)] |}) /\
  last_evaluation_date
    (evaluate_body_through settings no_status t_later (first_tick [heater])).2
  = Some t_later.
Proof.
  assert (Hrun : evaluate_body_through settings no_status t_later
                   (first_tick [heater])
                 = (Raise TypeError,
                    (evaluate_body_through settings no_status t_later
                       (first_tick [heater])).2))
    by reflexivity.
  assert (Hn : ~ rollover_tick settings t_later (first_tick [heater]))
    by (intros Hd; exact Hd).
  split; [exact Hrun|]. split; [exact Hn|].
  destruct (failure_is_swallowed settings no_status t_later _ _ _ Hrun)
    as (Hret & _ & _ & _ & _ & Hlast).
  split; [exact Hret|exact (Hlast Hn)].
Defined.

(** C6 at work.  At the first evaluation 500 W are taken from the grid:
    the injection is 0 and, [last_injection] being -1, it is sent.
    With 1100 W given to the grid the injection -1100 is sent, though
    [last_injection] was 0.  With the same readings and a plug that
    answers [None] in the recovery, the balancing fails and nothing is
    sent. *)
Lemma injection_message_witness :
  (proceeds settings t_later (first_tick [heater]) /\
   balance settings 3000 3500 (equip (first_tick [heater]))
   = (Ok tt, Store [set_power 0 heater] [Decrease 0 600 (Some 600)]) /\
   0 <= 3500 - 3000 /\
   last_injection (first_tick [heater]) <> 0 /\
   published (evaluate settings t_later (first_tick [heater]))
   = [Message "domoticz/in" (Domoticz "7" 0 0);
      Message "regul/status"
        (Status t_later 3500 3000 0
           [EquipmentStatus "ECS" (Some 0) 250 false])]) /\
  (proceeds settings t_later (sunny [heater]) /\
   balance settings 2100 1000 (equip (sunny [heater]))
   = (Ok tt, Store [set_power 1000 heater] [Increase 0 1000 (Some 600)]) /\
   1000 - 2100 < 0 /\
   last_injection (evaluate settings t_later (sunny [heater])) = -1100 /\
   published (evaluate settings t_later (sunny [heater]))
   = [Message "domoticz/in" (Domoticz "7" 0 (-1100));
      Message "regul/status"
        (Status t_later 1000 2100 (-1100)
           [EquipmentStatus "ECS" (Some 1000) 250 false])]) /\
  (balance settings 2100 1000 (equip (sunny [charger; heater; plug]))
   = (Raise TypeError,
      Store [charger; heater; plug]
        [Increase 0 1000 (Some (-500)); Decrease 2 500 None]) /\
   published (evaluate settings t_later (sunny [charger; heater; plug])) = []
   /\
   last_injection (evaluate settings t_later (sunny [charger; heater; plug]))
   = 0).
Proof.
  assert (Hp : proceeds settings t_later (first_tick [heater])) by exact I.
  assert (Hrun : balance settings 3000 3500 (equip (first_tick [heater]))
                 = (Ok tt, Store [set_power 0 heater]
                             [Decrease 0 600 (Some 600)]))
    by reflexivity.
  assert (Hpos : 0 <= 3500 - 3000) by (vm_compute; discriminate).
  assert (Hne : last_injection (first_tick [heater]) <> 0)
    by (vm_compute; discriminate).
  assert (Hp' : proceeds settings t_later (sunny [heater]))
    by (split; [reflexivity|vm_compute; discriminate]).
  assert (Hrun' : balance settings 2100 1000 (equip (sunny [heater]))
                  = (Ok tt, Store [set_power 1000 heater]
                              [Increase 0 1000 (Some 600)]))
    by reflexivity.
  assert (Hneg : 1000 - 2100 < 0) by (vm_compute; reflexivity).
  assert (Hfail : balance settings 2100 1000
                    (equip (sunny [charger; heater; plug]))
                  = (Raise TypeError,
                     Store [charger; heater; plug]
                       [Increase 0 1000 (Some (-500)); Decrease 2 500 None]))
    by reflexivity.
  split; [|split].
  - split; [exact Hp|]. split; [exact Hrun|]. split; [exact Hpos|].
    split; [exact Hne|].
    destruct (proj1 (injection_message settings t_later (first_tick [heater]))
                3000 3500 _ Hp eq_refl eq_refl Hrun) as [_ Hzero].
    exact (proj2 (proj2 (Hzero Hpos)) Hne).
  - split; [exact Hp'|]. split; [exact Hrun'|]. split; [exact Hneg|].
    destruct (proj1 (injection_message settings t_later (sunny [heater]))
                2100 1000 _ Hp' eq_refl eq_refl Hrun') as [Hsent _].
    exact (Hsent Hneg).
  - split; [exact Hfail|].
    apply (proj2 (injection_message settings t_later
                    (sunny [charger; heater; plug]))).
    right; right; right. exists 2100, 1000, TypeError. eexists.
    split; [reflexivity|]. split; [reflexivity|exact Hfail].
Defined.


(** C8 at work: four seconds after the previous evaluation nothing
    happens; the first evaluation goes on. *)
Lemma rate_limit_guard_witness :
  rate_limited settings t_soon (evening [heater]) /\
  evaluate settings t_soon (evening [heater]) = evening [heater] /\
  last_evaluation_date (first_tick [heater]) = None /\
  last_evaluation_date (evaluate settings t_later (first_tick [heater]))
  = Some t_later.
Proof.
  assert (Hr : rate_limited settings t_soon (evening [heater]))
    by (split; vm_compute; reflexivity).
  split; [exact Hr|].
  split; [exact (proj2 (proj1 (rate_limit_guard settings t_soon
                                 (evening [heater])) Hr))|].
  split; [reflexivity|].
  exact (proj2 (rate_limit_guard settings t_later (first_tick [heater]))
           eq_refl).
Defined.

(** C9 at work: 20 W under the target, with a threshold of 50 W; and
    exactly on the target. *)
Lemma balanced_branch_no_action_witness :
  0 <= 3000 - MARGIN settings - 2880 < BALANCE_THRESHOLD settings /\
  balance settings 3000 2880 (Store [charger; heater] [])
  = (Ok tt, Store [charger; heater] []) /\
  2900 = 3000 - MARGIN settings /\
  0 < BALANCE_THRESHOLD settings /\
  balance settings 3000 2900 (Store [charger; heater] [])
  = (Ok tt, Store [charger; heater] []).
Proof.
  assert (H1 : 0 <= 3000 - MARGIN settings - 2880 < BALANCE_THRESHOLD settings)
    by (vm_compute; split; [discriminate|reflexivity]).
  assert (H2 : 2900 = 3000 - MARGIN settings) by reflexivity.
  assert (H3 : 0 < BALANCE_THRESHOLD settings) by reflexivity.
  split; [exact H1|].
  split; [exact (proj1 (balanced_branch_no_action settings 3000 2880
                          (Store [charger; heater] [])) H1)|].
  split; [exact H2|]. split; [exact H3|].
  exact (proj2 (balanced_branch_no_action settings 3000 2900
                  (Store [charger; heater] [])) H2 H3).
Defined.

(** C10 at work: the charger lacks 500 W; the radiator, of lowest
    priority, gives its 300 W; the plug, asked next, answers [None]:
    the decrease of the radiator is kept and nothing is published. *)
Lemma recovery_none_aborts_witness :
  proceeds settings t_later (sunny [charger; heater; plug; radiator]) /\
  1000 <= 2100 - MARGIN settings /\
  balance settings 2100 1000 (equip (sunny [charger; heater; plug; radiator]))
  = (Raise TypeError,
     Store [charger; heater; plug; set_power 0 radiator]
       [Increase 0 1000 (Some (-500)); Decrease 3 500 (Some 300);
        Decrease 2 200 None]) /\
  Decrease 2 200 None
  ∈ [Increase 0 1000 (Some (-500)); Decrease 3 500 (Some 300);
     Decrease 2 200 None] /\
  equipments (equip (evaluate settings t_later
                       (sunny [charger; heater; plug; radiator])))
  = [charger; heater; plug; set_power 0 radiator] /\
  published (evaluate settings t_later
               (sunny [charger; heater; plug; radiator])) = [].
Proof.
  assert (Hp : proceeds settings t_later
                 (sunny [charger; heater; plug; radiator])).
  { split; [reflexivity|]. vm_compute. discriminate. }
  assert (Hle : 1000 <= 2100 - MARGIN settings) by (vm_compute; discriminate).
  assert (Hrun : balance settings 2100 1000
                   (equip (sunny [charger; heater; plug; radiator]))
                 = (Raise TypeError,
                    Store [charger; heater; plug; set_power 0 radiator]
                      [Increase 0 1000 (Some (-500)); Decrease 3 500 (Some 300);
                       Decrease 2 200 None]))
    by reflexivity.
  assert (Hin : Decrease 2 200 None
                ∈ [Increase 0 1000 (Some (-500)); Decrease 3 500 (Some 300);
                   Decrease 2 200 None]).
  { do 2 (apply elem_of_cons; right). apply elem_of_cons. left. reflexivity. }
  split; [exact Hp|]. split; [exact Hle|]. split; [exact Hrun|].
  split; [exact Hin|].
  destruct (recovery_none_aborts settings t_later _ 2100 1000 _ _ _ 2%nat 200
              Hp eq_refl eq_refl Hle Hrun eq_refl Hin)
    as (_ & _ & Hev & Hpub & _).
  split; [rewrite Hev; reflexivity|exact Hpub].
Defined.

(** C3 as stated fails.  The charger, blocked with 1000 W available,
    lacks 500 W; the heater uses 600 W, the freeable power.  After the
    recovery the charger is offered, and takes, 1500 W: more than the
    freeable power. *)
Lemma retry_offer_exceeds_freeable :
  balance settings 2100 1000 (Store [charger; heater] [])
  = (Ok tt,
     Store [set_power 1500 charger; set_power 100 heater]
       [Increase 0 1000 (Some (-500)); Decrease 1 500 (Some 500);
        Increase 0 1500 (Some 0)]) /\
  freeable [charger; heater] 0 = 600 /\
  get_current_power charger = Some 0 /\
  get_current_power (set_power 1500 charger) = Some 1500 /\
  ~ (1500 - 0 <= freeable [charger; heater] 0).
Proof.
  repeat split; try reflexivity. vm_compute. intros Hle. apply Hle. reflexivity.
Qed.

(** C4 as stated fails.  The day after, [energy_today] (100 Ws before)
    is the 250 Ws of the heater, and [energy_yesterday] is still 400 Ws:
    it has not received the previous value of [energy_today]. *)
Lemma yesterday_is_not_rotated :
  rollover_tick settings t_next_day (evening [heater]) /\
  ECS_energy_today (evening [heater]) = 100%Q /\
  ECS_energy_today (evaluate settings t_next_day (evening [heater])) = 250%Q /\
  ECS_energy_yesterday (evaluate settings t_next_day (evening [heater]))
  = 400%Q /\
  ~ (ECS_energy_yesterday (evaluate settings t_next_day (evening [heater]))
     == ECS_energy_today (evening [heater]))%Q.
Proof.
  split; [vm_compute; discriminate|].
  repeat split; try reflexivity. vm_compute. discriminate.
Qed.

(** C5 as stated fails.  The day after, the evaluation fails at line
    214, before line 228: [last_evaluation_date] is still the timestamp
    of the previous evaluation. *)
Lemma failure_before_the_timestamp :
  evaluate_body settings t_next_day (evening [heater])
  = (Raise TypeError, set_ECS_energy_today 250 (evening [heater])) /\
  last_evaluation_date (evaluate settings t_next_day (evening [heater]))
  = Some t_last /\
  ~ (last_evaluation_date (evaluate settings t_next_day (evening [heater]))
     = Some t_next_day).
Proof.
  repeat split; try reflexivity. vm_compute. discriminate.
Qed.

(** C6 as stated fails.  With 3500 W consumed and 3000 W produced the
    value [consumption - production] is 500: when [last_injection] is 0
    no message is sent to Domoticz, and when it is -1 the message sent
    holds 0. *)
Lemma positive_injection_not_reported :
  3500 - 3000 <> 0 /\
  published (evaluate settings t_later (evening [heater]))
  = [Message "regul/status"
       (Status t_later 3500 3000 0 [EquipmentStatus "ECS" (Some 0) 250 false])]
  /\
  published (evaluate settings t_later (first_tick [heater]))
  = [Message "domoticz/in" (Domoticz "7" 0 0);
     Message "regul/status"
       (Status t_later 3500 3000 0 [EquipmentStatus "ECS" (Some 0) 250 false])].
Proof.
  repeat split; try reflexivity. vm_compute. discriminate.
Qed.


End Runs.

(** * More properties of the module *)

Section MoreProperties.

Context {E : Type} {equipment_methods : Equipment E}.

Variable cfg : config.
Variable sns : sensors.
Variable force_json : json -> json -> E -> E.

Implicit Types (e o : E) (es : list E) (s : store E) (g : regulation E).
Implicit Types (j k i len : nat) (js ks : list nat) (c : call).
Implicit Types (tr : list call).

(** ** The balancer keeps the equipments in place and raises nothing
       but [TypeError] *)

Lemma decrease_loop_length js : forall excess s r s',
  decrease_loop js excess s = (r, s') ->
  length (equipments s') = length (equipments s).
Proof.
  induction js as [|j js IH]; intros excess s r s' Hrun.
  - inversion Hrun; subst. reflexivity.
  - rewrite decrease_loop_cons in Hrun.
    destruct (equipments s !! j) as [e|]; [|inversion Hrun; subst; reflexivity].
    destruct (is_forced e); [eauto|].
    cbn zeta in Hrun.
    assert (Hone : forall e' c,
              length (equipments (after_call s j e' c)) = length (equipments s))
      by (intros; cbn; apply length_insert).
    destruct (decrease_power_by excess e).1 as [x|].
    + destruct (excess - x <=? 0).
      * inversion Hrun; subst. apply Hone.
      * apply IH in Hrun. rewrite Hrun. apply Hone.
    + inversion Hrun; subst. apply Hone.
Qed.

Lemma in_range_is_Some len s :
  len = length (equipments s) ->
  forall a j, j ∈ range a len -> is_Some (equipments s !! j).
Proof.
  intros Hlen a j Hj. apply elem_of_range in Hj.
  apply lookup_lt_is_Some. lia.
Qed.

(** With [len] the number of equipments and [i] one of them,
    [recover_and_retry] keeps this number and ends normally or with
    [TypeError]. *)
Lemma recover_and_retry_sound len i available needed s r s' :
  len = length (equipments s) ->
  (i < len)%nat ->
  recover_and_retry len i available needed s = (r, s') ->
  length (equipments s') = len /\
  ((exists a, r = Ok a) \/ r = Raise TypeError).
Proof.
  intros Hlen Hi Hrun. rewrite recover_and_retry_eq in Hrun.
  rewrite freeable_loop_sum in Hrun by (eapply in_range_is_Some; eauto).
  match type of Hrun with
  | context [if ?b then _ else _] => destruct b
  end.
  2:{ inversion Hrun; subst. split; [reflexivity|]. left. eauto. }
  destruct (recover_loop (reverse (range (S i) len)) needed 0 s)
    as [rr s1] eqn:Hrec.
  apply recover_loop_run in Hrec as (Hlen1 & tr & _ & _ & Hr & _).
  2:{ intros j Hj. rewrite elem_of_reverse in Hj.
      eapply in_range_is_Some; eauto. }
  destruct Hr as [->|[-> _]].
  - rewrite call_increase_eq in Hrun.
    destruct (equipments s1 !! i) as [e|] eqn:He.
    2:{ apply lookup_ge_None in He. lia. }
    inversion Hrun; subst r s'. cbn. rewrite length_insert.
    split; [congruence|]. left. eauto.
  - inversion Hrun; subst. split; [congruence|]. right. reflexivity.
Qed.

Lemma increase_loop_sound len ks : forall a s r s',
  len = length (equipments s) ->
  (forall i, i ∈ ks -> (i < len)%nat) ->
  increase_loop len ks a s = (r, s') ->
  length (equipments s') = len /\ (r = Ok tt \/ r = Raise TypeError).
Proof.
  induction ks as [|i ks IH]; intros a s r s' Hlen Hks Hrun.
  - inversion Hrun; subst. auto.
  - assert (Hi : (i < len)%nat) by (apply Hks, elem_of_cons; by left).
    assert (Hks' : forall k, k ∈ ks -> (k < len)%nat)
      by (intros k Hk; apply Hks, elem_of_cons; by right).
    rewrite increase_loop_cons in Hrun.
    destruct a as [available|]; [|inversion Hrun; subst; auto].
    destruct (available <=? 0); [inversion Hrun; subst; auto|].
    destruct (equipments s !! i) as [e|] eqn:He.
    2:{ apply lookup_ge_None in He. lia. }
    destruct (is_forced e); [eauto|].
    cbn zeta in Hrun.
    set (s1 := after_call s i (increase_power_by available e).2
                 (Increase i available (increase_power_by available e).1)) in *.
    assert (Hlen1 : len = length (equipments s1))
      by (cbn; rewrite length_insert; exact Hlen).
    destruct (increase_power_by available e).1 as [x|];
      [|inversion Hrun; subst; auto].
    destruct (x =? 0); [inversion Hrun; subst; auto|].
    destruct (x <? 0); [|eauto].
    destruct (recover_and_retry len i available (- x) s1)
      as [[a'|y] s2] eqn:Hrec;
      apply recover_and_retry_sound in Hrec as [Hlen2 Hr]; try assumption.
    + eapply IH; [symmetry; exact Hlen2|exact Hks'|exact Hrun].
    + inversion Hrun; subst. split; [exact Hlen2|].
      destruct Hr as [[a Ha]|Hr]; [discriminate|]. right. congruence.
Qed.

Lemma balance_sound production consumption s r s' :
  balance cfg production consumption s = (r, s') ->
  length (equipments s') = length (equipments s) /\
  (r = Ok tt \/
   r = Raise TypeError /\
   BALANCE_THRESHOLD cfg <= production - MARGIN cfg - consumption /\
   0 <= production - MARGIN cfg - consumption).
Proof.
  intros Hrun.
  destruct (Z.gtb_spec consumption (production - MARGIN cfg)) as [Hgt|Hle].
  - unfold balance in Hrun.
    destruct (consumption >? production - MARGIN cfg) eqn:Hb.
    2:{ rewrite Z.gtb_ltb in Hb. apply Z.ltb_ge in Hb. lia. }
    unfold bind, get in Hrun.
    split; [eapply decrease_loop_length; eauto|]. left.
    edestruct (decrease_loop_run (equipments s)
                 (reverse (range 0 (length (equipments s)))))
      as (tr & s1 & Hrun1 & _).
    { rewrite range_0, reverse_Permutation. apply NoDup_seq. }
    { intros j Hj. split; [reflexivity|].
      rewrite elem_of_reverse in Hj. eapply in_range_is_Some; eauto. }
    rewrite Hrun1 in Hrun. congruence.
  - unfold balance in Hrun.
    destruct (consumption >? production - MARGIN cfg) eqn:Hb.
    { rewrite Z.gtb_ltb in Hb. apply Z.ltb_lt in Hb. lia. }
    destruct (production - MARGIN cfg - consumption <? BALANCE_THRESHOLD cfg)
      eqn:Hbal.
    + inversion Hrun; subst. split; [reflexivity|left; reflexivity].
    + apply Z.ltb_ge in Hbal. unfold bind, get in Hrun.
      apply increase_loop_sound in Hrun as [Hlen Hr]; [|reflexivity|].
      2:{ intros i Hi. apply elem_of_range in Hi. lia. }
      split; [exact Hlen|].
      destruct Hr as [Hr|Hr]; subst r; [left; reflexivity|right].
      repeat split; lia.
Qed.

(** X4.  Whatever the equipments answer, the balancer keeps the number
    of equipments, and it ends normally or raises [TypeError]; it raises
    only in the excess branch. *)
Theorem balance_raises_only_type_error production consumption s r s' :
  balance cfg production consumption s = (r, s') ->
  length (equipments s') = length (equipments s) /\
  (r = Ok tt \/
   r = Raise TypeError /\
   BALANCE_THRESHOLD cfg <= production - MARGIN cfg - consumption /\
   0 <= production - MARGIN cfg - consumption).
Proof. apply balance_sound. Qed.

(** ** The excess pass: priorities *)

Lemma by_priority_app cur tr1 tr2 :
  by_priority cur (tr1 ++ tr2) <->
  by_priority cur tr1 /\ by_priority (served cur tr1) tr2.
Proof.
  revert cur. induction tr1 as [|c tr1 IH]; intros cur; cbn.
  - tauto.
  - destruct c as [j w x|i w x]; rewrite IH; tauto.
Qed.

Lemma served_app cur tr1 tr2 :
  served cur (tr1 ++ tr2) = served (served cur tr1) tr2.
Proof.
  revert cur. induction tr1 as [|c tr1 IH]; intros cur; cbn; [reflexivity|].
  destruct c; apply IH.
Qed.

Lemma decreases_by_priority i tr :
  Forall (fun c => is_decrease c = true /\ (i < call_index c)%nat) tr ->
  by_priority (Some i) tr /\ served (Some i) tr = Some i.
Proof.
  induction 1 as [|c tr [Hd Hi] _ [IH1 IH2]]; [split; [exact I|reflexivity]|].
  destruct c as [j w x|j w x]; [|discriminate]. cbn in *. auto.
Qed.

Lemma recover_loop_calls js : forall needed freed s r s',
  recover_loop js needed freed s = (r, s') ->
  exists tr,
    calls s' = calls s ++ tr /\
    Forall (fun c => is_decrease c = true /\ call_index c ∈ js) tr.
Proof.
  induction js as [|j js IH]; intros needed freed s r s' Hrun.
  - inversion Hrun; subst. exists []. split; [symmetry; apply app_nil_r|].
    constructor.
  - assert (Hweak : forall tr,
              Forall (fun c => is_decrease c = true /\ call_index c ∈ js) tr ->
              Forall (fun c => is_decrease c = true /\ call_index c ∈ j :: js) tr).
    { intros tr Htr. eapply Forall_impl; [exact Htr|].
      intros c [Hd Hc]. split; [exact Hd|]. apply elem_of_cons. by right. }
    assert (Hhere : forall w x,
              is_decrease (Decrease j w x) = true /\
              call_index (Decrease j w x) ∈ j :: js).
    { intros w x. split; [reflexivity|]. apply elem_of_cons. by left. }
    rewrite recover_loop_cons in Hrun.
    destruct (equipments s !! j) as [o|].
    2:{ inversion Hrun; subst. exists [].
        split; [symmetry; apply app_nil_r|constructor]. }
    destruct (is_forced o).
    { apply IH in Hrun as (tr & Hc & Hall). exists tr. auto. }
    cbn zeta in Hrun.
    destruct (decrease_power_by needed o).1 as [x|].
    + destruct (needed - x <=? 0).
      * inversion Hrun; subst. eexists [_]. split; [reflexivity|].
        constructor; [apply Hhere|constructor].
      * apply IH in Hrun as (tr & Hc & Hall). eexists (_ :: tr).
        split; [rewrite Hc; cbn; rewrite <- app_assoc; reflexivity|].
        constructor; [apply Hhere|apply Hweak, Hall].
    + inversion Hrun; subst. eexists [_]. split; [reflexivity|].
      constructor; [apply Hhere|constructor].
Qed.

Lemma recover_and_retry_priority len i available needed s r s' :
  recover_and_retry len i available needed s = (r, s') ->
  exists tr,
    calls s' = calls s ++ tr /\
    by_priority (Some i) tr /\ served (Some i) tr = Some i.
Proof.
  rewrite recover_and_retry_eq.
  pose proof (freeable_loop_state (range (S i) len) 0 s) as Hst.
  destruct (freeable_loop (range (S i) len) 0 s) as [[fr|x] s0];
    cbn in Hst; subst s0.
  2:{ intros Hrun; inversion Hrun; subst. exists [].
      split; [symmetry; apply app_nil_r|]. split; [exact I|reflexivity]. }
  destruct (fr >=? needed).
  2:{ intros Hrun; inversion Hrun; subst. exists [].
      split; [symmetry; apply app_nil_r|]. split; [exact I|reflexivity]. }
  destruct (recover_loop (reverse (range (S i) len)) needed 0 s)
    as [rr s1] eqn:Hrec.
  apply recover_loop_calls in Hrec as (tr1 & Hc1 & Hall).
  assert (Hdec : by_priority (Some i) tr1 /\ served (Some i) tr1 = Some i).
  { apply decreases_by_priority. eapply Forall_impl; [exact Hall|].
    intros c [Hd Hc]. split; [exact Hd|].
    rewrite elem_of_reverse, elem_of_range in Hc. lia. }
  destruct Hdec as [Hp1 Hs1].
  destruct rr as [freed|x]; intros Hrun.
  - rewrite call_increase_eq in Hrun.
    destruct (equipments s1 !! i) as [e|]; inversion Hrun; subst.
    + eexists (tr1 ++ [_]).
      split; [cbn; rewrite Hc1, <- app_assoc; reflexivity|].
      rewrite by_priority_app, served_app, Hs1. cbn. auto.
    + exists tr1. auto.
  - inversion Hrun; subst. exists tr1. auto.
Qed.

Lemma increase_loop_priority len n : forall a cur av s r s',
  match cur with Some c => (c <= a)%nat | None => True end ->
  increase_loop len (seq a n) av s = (r, s') ->
  exists tr, calls s' = calls s ++ tr /\ by_priority cur tr.
Proof.
  assert (Hnil : forall s cur,
            exists tr, calls s = calls s ++ tr /\ by_priority cur tr).
  { intros s cur. exists []. split; [symmetry; apply app_nil_r|exact I]. }
  induction n as [|n IH]; intros a cur av s r s' Hcur Hrun.
  - inversion Hrun; subst. apply Hnil.
  - cbn [seq] in Hrun. rewrite increase_loop_cons in Hrun.
    assert (Hcur' : match cur with Some c => (c <= S a)%nat | None => True end)
      by (destruct cur; [lia|exact I]).
    destruct av as [available|]; [|inversion Hrun; subst; apply Hnil].
    destruct (available <=? 0); [inversion Hrun; subst; apply Hnil|].
    destruct (equipments s !! a) as [e|]; [|inversion Hrun; subst; apply Hnil].
    destruct (is_forced e); [eauto|].
    cbn zeta in Hrun.
    set (c1 := Increase a available (increase_power_by available e).1) in *.
    set (s1 := after_call s a (increase_power_by available e).2 c1) in *.
    assert (Hc1 : by_priority cur [c1]) by (cbn; auto).
    assert (Hone : exists tr, calls s1 = calls s ++ tr /\ by_priority cur tr)
      by (exists [c1]; split; [reflexivity|exact Hc1]).
    assert (Hcont : forall tr s0,
              calls s0 = calls s1 ++ tr -> by_priority (Some a) tr ->
              exists tr', calls s0 = calls s ++ tr' /\ by_priority cur tr').
    { intros tr s0 Hc Hp. exists ([c1] ++ tr).
      split; [rewrite Hc; cbn; rewrite <- app_assoc; reflexivity|].
      apply by_priority_app. split; [exact Hc1|exact Hp]. }
    destruct (increase_power_by available e).1 as [x|];
      [|inversion Hrun; subst; exact Hone].
    destruct (x =? 0); [inversion Hrun; subst; exact Hone|].
    destruct (x <? 0).
    + destruct (recover_and_retry len a available (- x) s1)
        as [[a'|y] s2] eqn:Hrec;
        apply recover_and_retry_priority in Hrec as (tr1 & Hcr & Hp1 & Hs1).
      * apply (IH (S a) (Some a)) in Hrun as (tr2 & Hc2 & Hp2); [|lia].
        apply (Hcont (tr1 ++ tr2));
          [rewrite Hc2, Hcr; symmetry; apply app_assoc|].
        apply by_priority_app. rewrite Hs1. auto.
      * inversion Hrun; subst. eapply Hcont; eauto.
    + apply (IH (S a) (Some a)) in Hrun as (tr2 & Hc2 & Hp2); [|lia].
      eapply Hcont; eauto.
Qed.

(** X5.  When the consumption is not above the target, the calls of the
    balancer respect the priorities: the equipments are served from the
    highest priority down (an [increase_power_by] never goes back to an
    equipment of higher priority than the one served before), and every
    [decrease_power_by] is on an equipment of strictly lower priority
    than the one being served. *)
Theorem excess_pass_priority production consumption s r s' :
  consumption <= production - MARGIN cfg ->
  balance cfg production consumption s = (r, s') ->
  exists tr, calls s' = calls s ++ tr /\ by_priority None tr.
Proof.
  intros Hle Hrun. unfold balance in Hrun.
  destruct (consumption >? production - MARGIN cfg) eqn:Hb.
  { rewrite Z.gtb_ltb in Hb. apply Z.ltb_lt in Hb. lia. }
  destruct (production - MARGIN cfg - consumption <? BALANCE_THRESHOLD cfg).
  - inversion Hrun; subst. exists [].
    split; [symmetry; apply app_nil_r|exact I].
  - unfold bind, get in Hrun. rewrite range_0 in Hrun.
    eapply increase_loop_priority; [|exact Hrun]. exact I.
Qed.

(** ** The excess pass: where it stops *)

Lemma pass_shape_Forall tr : Forall goes_on tr -> pass_shape tr.
Proof.
  intros Hall. destruct tr as [|c tr] using rev_ind; [by left|].
  right. exists tr, c. split; [reflexivity|].
  apply Forall_app in Hall as [Hall _]. exact Hall.
Qed.

Lemma pass_shape_app tr1 tr2 :
  Forall goes_on tr1 -> pass_shape tr2 -> pass_shape (tr1 ++ tr2).
Proof.
  intros H1 [->|(tr0 & c & -> & H0)].
  { rewrite app_nil_r. apply pass_shape_Forall. exact H1. }
  right. exists (tr1 ++ tr0), c. split; [apply app_assoc|].
  apply Forall_app. split; assumption.
Qed.

Lemma increase_loop_exhausted len ks a s r s' :
  match a with Some x => x <= 0 | None => True end ->
  increase_loop len ks a s = (r, s') -> s' = s.
Proof.
  intros Ha Hrun. destruct ks as [|i ks]; [inversion Hrun; reflexivity|].
  rewrite increase_loop_cons in Hrun.
  destruct a as [x|]; [|inversion Hrun; reflexivity].
  destruct (x <=? 0) eqn:Hx; [inversion Hrun; reflexivity|].
  apply Z.leb_gt in Hx. lia.
Qed.

Lemma recover_and_retry_stops len i available needed s r s' :
  recover_and_retry len i available needed s = (r, s') ->
  exists tr,
    calls s' = calls s ++ tr /\
    (Forall goes_on tr /\ (r = Ok (Some available) \/ exists x, r = Raise x)
     \/
     exists tr0 w a,
       tr = tr0 ++ [Increase i w a] /\ Forall goes_on tr0 /\ r = Ok a).
Proof.
  rewrite recover_and_retry_eq.
  pose proof (freeable_loop_state (range (S i) len) 0 s) as Hst.
  destruct (freeable_loop (range (S i) len) 0 s) as [[fr|x] s0];
    cbn in Hst; subst s0.
  2:{ intros Hrun; inversion Hrun; subst. exists [].
      split; [symmetry; apply app_nil_r|]. left. split; [constructor|eauto]. }
  destruct (fr >=? needed).
  2:{ intros Hrun; inversion Hrun; subst. exists [].
      split; [symmetry; apply app_nil_r|]. left. split; [constructor|auto]. }
  destruct (recover_loop (reverse (range (S i) len)) needed 0 s)
    as [rr s1] eqn:Hrec.
  apply recover_loop_calls in Hrec as (tr1 & Hc1 & Hall).
  assert (Hgo : Forall goes_on tr1).
  { eapply Forall_impl; [exact Hall|]. intros c [Hd _]. left. exact Hd. }
  destruct rr as [freed|x]; intros Hrun.
  - rewrite call_increase_eq in Hrun.
    destruct (equipments s1 !! i) as [e|]; inversion Hrun; subst.
    + eexists (tr1 ++ [_]).
      split; [cbn; rewrite Hc1, <- app_assoc; reflexivity|].
      right. eexists tr1, _, _. split; [reflexivity|].
      split; [exact Hgo|reflexivity].
    + exists tr1. split; [exact Hc1|]. left. split; [exact Hgo|]. eauto.
  - inversion Hrun; subst. exists tr1. split; [exact Hc1|]. left.
    split; [exact Hgo|]. eauto.
Qed.

Lemma increase_loop_stops len ks : forall a s r s',
  increase_loop len ks a s = (r, s') ->
  exists tr, calls s' = calls s ++ tr /\ pass_shape tr.
Proof.
  assert (Hnil : forall s, exists tr, calls s = calls s ++ tr /\ pass_shape tr).
  { intros s. exists []. split; [symmetry; apply app_nil_r|by left]. }
  induction ks as [|i ks IH]; intros a s r s' Hrun.
  - inversion Hrun; subst. apply Hnil.
  - rewrite increase_loop_cons in Hrun.
    destruct a as [available|]; [|inversion Hrun; subst; apply Hnil].
    destruct (available <=? 0); [inversion Hrun; subst; apply Hnil|].
    destruct (equipments s !! i) as [e|]; [|inversion Hrun; subst; apply Hnil].
    destruct (is_forced e); [eauto|].
    cbn zeta in Hrun.
    set (c1 := Increase i available (increase_power_by available e).1) in *.
    set (s1 := after_call s i (increase_power_by available e).2 c1) in *.
    assert (Hone : exists tr, calls s1 = calls s ++ tr /\ pass_shape tr).
    { exists [c1]. split; [reflexivity|]. right. exists [], c1.
      split; [reflexivity|constructor]. }
    assert (Hcont : forall tr s0,
              goes_on c1 -> calls s0 = calls s1 ++ tr -> pass_shape tr ->
              exists tr', calls s0 = calls s ++ tr' /\ pass_shape tr').
    { intros tr s0 Hgo Hc Hp. exists ([c1] ++ tr).
      split; [rewrite Hc; cbn; rewrite <- app_assoc; reflexivity|].
      apply pass_shape_app; [constructor; [exact Hgo|constructor]|exact Hp]. }
    subst c1.
    destruct (increase_power_by available e).1 as [x|];
      [|inversion Hrun; subst; exact Hone].
    destruct (x =? 0) eqn:Hx0; [inversion Hrun; subst; exact Hone|].
    apply Z.eqb_neq in Hx0.
    assert (Hgo1 : goes_on (Increase i available (Some x)))
      by (right; exists x; split; [reflexivity|exact Hx0]).
    destruct (x <? 0).
    + destruct (recover_and_retry len i available (- x) s1)
        as [ra s2] eqn:Hrec.
      apply recover_and_retry_stops in Hrec
        as (tr1 & Hcr & [[Hgo Hr]|(tr0 & w & a' & -> & Hgo & ->)]).
      * destruct ra as [a'|y].
        -- apply IH in Hrun as (tr2 & Hc2 & Hp2).
           apply (Hcont (tr1 ++ tr2)); [exact Hgo1| |].
           ++ rewrite Hc2, Hcr. symmetry. apply app_assoc.
           ++ apply pass_shape_app; assumption.
        -- inversion Hrun; subst. eapply Hcont; [exact Hgo1|exact Hcr|].
           apply pass_shape_Forall. exact Hgo.
      * destruct a' as [y|].
        -- destruct (Z_le_gt_dec y 0) as [Hy|Hy].
           ++ apply increase_loop_exhausted in Hrun; [|exact Hy]. subst s'.
              eapply Hcont; [exact Hgo1|exact Hcr|]. right. eauto.
           ++ apply IH in Hrun as (tr2 & Hc2 & Hp2).
              apply (Hcont ((tr0 ++ [Increase i w (Some y)]) ++ tr2));
                [exact Hgo1| |].
              ** rewrite Hc2, Hcr. symmetry. apply app_assoc.
              ** apply pass_shape_app; [|exact Hp2].
                 apply Forall_app. split; [exact Hgo|].
                 constructor; [|constructor]. right. exists y.
                 split; [reflexivity|lia].
        -- apply increase_loop_exhausted in Hrun; [|exact I]. subst s'.
           eapply Hcont; [exact Hgo1|exact Hcr|]. right. eauto.
    + apply IH in Hrun as (tr2 & Hc2 & Hp2). eapply Hcont; eauto.
Qed.

(** X6.  When the consumption is not above the target, an
    [increase_power_by] that returns [None] or 0 is the last call of the
    balancer: no equipment of lower priority is examined after it. *)
Theorem excess_pass_stops production consumption s r s' tr pre c post :
  consumption <= production - MARGIN cfg ->
  balance cfg production consumption s = (r, s') ->
  calls s' = calls s ++ tr ->
  tr = pre ++ c :: post ->
  is_decrease c = false ->
  call_result c = None \/ call_result c = Some 0 ->
  post = [].
Proof.
  intros Hle Hrun Hc Hsplit Hinc Hres.
  assert (Hshape : pass_shape tr).
  { unfold balance in Hrun.
    destruct (consumption >? production - MARGIN cfg) eqn:Hb.
    { rewrite Z.gtb_ltb in Hb. apply Z.ltb_lt in Hb. lia. }
    destruct (production - MARGIN cfg - consumption <? BALANCE_THRESHOLD cfg).
    - inversion Hrun; subst s'.
      rewrite <- (app_nil_r (calls s)) in Hc at 1.
      apply app_inv_head in Hc. subst tr. by left.
    - unfold bind, get in Hrun.
      apply increase_loop_stops in Hrun as (tr' & Hc' & Hp).
      rewrite Hc in Hc'. apply app_inv_head in Hc'. subst tr'. exact Hp. }
  destruct Hshape as [->|(tr0 & c0 & -> & Hgo)].
  { destruct pre; discriminate. }
  destruct post as [|d post] using rev_ind; [reflexivity|]. exfalso.
  clear IHpost.
  replace (pre ++ c :: post ++ [d]) with ((pre ++ c :: post) ++ [d]) in Hsplit
    by (rewrite <- app_assoc; reflexivity).
  apply app_inj_tail in Hsplit as [-> _].
  apply Forall_app in Hgo as [_ Hgo]. apply Forall_cons in Hgo as [Hgo _].
  destruct Hgo as [Hd|(x & Hx & Hx0)]; [congruence|].
  destruct Hres as [Hres|Hres]; congruence.
Qed.

(** X7.  The second refusal.  An equipment that has answered a negative
    amount and then, retried after the recovery, answers [None] makes
    the excess pass raise [TypeError] at the next test of
    [available_power] (line 265): there is always a next equipment,
    since power was recovered from one. *)
Theorem retry_none_raises len i available s e x s2 :
  len = length (equipments s) ->
  0 < available ->
  equipments s !! i = Some e ->
  is_forced e = false ->
  (increase_power_by available e).1 = Some x ->
  x < 0 ->
  recover_and_retry len i available (- x)
    (after_call s i (increase_power_by available e).2
       (Increase i available (Some x)))
  = (Ok None, s2) ->
  increase_loop len (range i len) (Some available) s = (Raise TypeError, s2).
Proof.
  intros Hlen Hpos He Hf Hx Hneg Hrec.
  assert (Hi : (i < len)%nat) by (apply lookup_lt_Some in He; lia).
  assert (Hrange : range i len = i :: range (S i) len).
  { unfold range. replace (len - i)%nat with (S (len - S i)) by lia.
    reflexivity. }
  rewrite Hrange, (increase_loop_blocked len i _ available s e x) by assumption.
  rewrite Hrec.
  destruct (range (S i) len) as [|k ks] eqn:Hks.
  - exfalso. rewrite recover_and_retry_eq, Hks in Hrec. cbn in Hrec.
    destruct (0 >=? - x) eqn:Hge; [|discriminate].
    apply Z.geb_le in Hge. lia.
  - rewrite increase_loop_cons. reflexivity.
Qed.

(** ** The evaluation: what it leaves alone *)

Lemma evaluate_rollover t g w :
  rollover_tick cfg t g ->
  equipments (equip g) !! water_heater cfg = Some w ->
  evaluate cfg t g = set_ECS_energy_today (get_energy w) g.
Proof.
  intros Hr Hw. unfold evaluate.
  rewrite (evaluate_body_rollover cfg t g Hr), Hw. reflexivity.
Qed.

(** The state after [evaluate], in the three kinds of ticks. *)
Lemma evaluate_cases t g :
  evaluate cfg t g = g \/
  (exists q, evaluate cfg t g = set_ECS_energy_today q g) \/
  proceeds cfg t g /\
  (evaluate cfg t g = set_last_evaluation_date (Some t) g /\
   (power_production g = None \/ power_consumption g = None)
   \/
   exists production consumption r st,
     power_production g = Some production /\
     power_consumption g = Some consumption /\
     balance cfg production consumption (equip g) = (r, st) /\
     (evaluate cfg t g = set_equip st (set_last_evaluation_date (Some t) g)
      \/
      evaluate cfg t g
      = reported cfg t production consumption
          (set_equip st (set_last_evaluation_date (Some t) g)))).
Proof.
  destruct (tick_cases cfg t g) as [Hr|[Hl|Hp]].
  - unfold evaluate. rewrite (evaluate_body_rollover cfg t g Hr).
    destruct (equipments (equip g) !! water_heater cfg) as [w|]; cbn; eauto.
  - left. unfold evaluate.
    rewrite (evaluate_body_rate_limited cfg t g Hl). reflexivity.
  - right; right. split; [exact Hp|]. unfold evaluate.
    rewrite (evaluate_body_proceeds cfg t g Hp). cbn zeta.
    destruct (power_production g) as [production|]; [|left; auto].
    destruct (power_consumption g) as [consumption|]; [|left; auto].
    right. exists production, consumption.
    destruct (balance cfg production consumption (equip g)) as [[[]|x] st];
      eexists _, st; repeat split; cbn; auto.
Qed.

Lemma evaluate_keeps t g :
  power_production (evaluate cfg t g) = power_production g /\
  power_consumption (evaluate cfg t g) = power_consumption g /\
  CLOUD_forecast (evaluate cfg t g) = CLOUD_forecast g /\
  ECS_energy_yesterday (evaluate cfg t g) = ECS_energy_yesterday g /\
  length (equipments (equip (evaluate cfg t g)))
  = length (equipments (equip g)) /\
  (last_injection g <= 0 -> last_injection (evaluate cfg t g) <= 0).
Proof.
  destruct (evaluate_cases t g)
    as [->|[[q ->]|(_ & [[-> _]|(p & c & r & st & Hp & Hc & Hb & [->| ->])])]];
    cbn; try (repeat split; auto; fail).
  - apply balance_sound in Hb as [Hlen _]. repeat split; auto.
  - apply balance_sound in Hb as [Hlen _]. repeat split; auto.
    intros _. destruct (c - p <? 0) eqn:Hneg; [apply Z.ltb_lt in Hneg|]; lia.
Qed.

(** X1.  [evaluate] never changes the two readings, never refreshes the
    forecast, never assigns [energy_yesterday] and never changes the
    number of equipments (the forecast and the fallback come after line
    214, which raises). *)
Theorem evaluate_leaves_alone t g :
  power_production (evaluate cfg t g) = power_production g /\
  power_consumption (evaluate cfg t g) = power_consumption g /\
  CLOUD_forecast (evaluate cfg t g) = CLOUD_forecast g /\
  ECS_energy_yesterday (evaluate cfg t g) = ECS_energy_yesterday g /\
  length (equipments (equip (evaluate cfg t g)))
  = length (equipments (equip g)).
Proof.
  destruct (evaluate_keeps t g) as (H1 & H2 & H3 & H4 & H5 & _).
  repeat split; assumption.
Qed.

Lemma evaluate_missing_reading t g :
  power_production g = None \/ power_consumption g = None ->
  equip (evaluate cfg t g) = equip g /\
  published (evaluate cfg t g) = published g /\
  last_injection (evaluate cfg t g) = last_injection g /\
  (proceeds cfg t g ->
   evaluate_body cfg t g = (Ok tt, set_last_evaluation_date (Some t) g)).
Proof.
  intros Hmiss.
  assert (Hbody : proceeds cfg t g ->
            evaluate_body cfg t g
            = (Ok tt, set_last_evaluation_date (Some t) g)).
  { intros Hp. rewrite (evaluate_body_proceeds cfg t g Hp). cbn zeta.
    destruct Hmiss as [->| ->]; [reflexivity|].
    destruct (power_production g); reflexivity. }
  destruct (evaluate_cases t g)
    as [->|[[q ->]|(_ & [[-> _]|(p & c & r & st & Hp & Hc & _)])]];
    cbn; auto.
  destruct Hmiss; congruence.
Qed.

(** X2.  As long as one of the two readings is missing, an evaluation
    calls no equipment and publishes nothing; when the tick passes the
    guards it still records its timestamp, and nothing else. *)
Theorem missing_reading_defers t g :
  power_production g = None \/ power_consumption g = None ->
  equip (evaluate cfg t g) = equip g /\
  published (evaluate cfg t g) = published g /\
  last_injection (evaluate cfg t g) = last_injection g /\
  (proceeds cfg t g ->
   evaluate_body cfg t g = (Ok tt, set_last_evaluation_date (Some t) g)).
Proof. apply evaluate_missing_reading. Qed.

(** X3.  The day rollover never completes.  Once the day of the month
    has changed, every evaluation fails at line 214 without recording
    its timestamp, so the next one meets the same rollover: after any
    number of such ticks the state is the one before them, but for
    [energy_today]; nothing was balanced or published. *)
Theorem rollover_never_completes ts g w :
  equipments (equip g) !! water_heater cfg = Some w ->
  Forall (fun t => rollover_tick cfg t g) ts ->
  ts <> [] ->
  foldl (fun g t => evaluate cfg t g) g ts
  = set_ECS_energy_today (get_energy w) g.
Proof.
  intros Hw Hall Hne.
  assert (Hgen : forall g0,
            last_evaluation_date g0 = last_evaluation_date g ->
            equip g0 = equip g ->
            g0 = g \/ g0 = set_ECS_energy_today (get_energy w) g ->
            ts <> [] ->
            foldl (fun g t => evaluate cfg t g) g0 ts
            = set_ECS_energy_today (get_energy w) g).
  { clear Hne. induction Hall as [|t ts Ht _ IH]; intros g0 Hl He Hg0 Hne;
      [contradiction|].
    cbn [foldl].
    assert (Hev : evaluate cfg t g0 = set_ECS_energy_today (get_energy w) g).
    { rewrite (evaluate_rollover t g0 w).
      - destruct Hg0 as [->| ->]; reflexivity.
      - unfold rollover_tick in *. rewrite Hl. exact Ht.
      - rewrite He. exact Hw. }
    rewrite Hev. destruct ts as [|t' ts']; [reflexivity|].
    apply IH; [reflexivity|reflexivity|by right|discriminate]. }
  apply Hgen; auto.
Qed.

(** ** [get_equipment_by_name] *)

Lemma is_str_true (v : json) (x : string) : is_str v x = true <-> v = JStr x.
Proof.
  destruct v; cbn; try (split; [discriminate|intros Heq; discriminate Heq]).
  rewrite String.eqb_eq. split; [intros ->; reflexivity|].
  intros Heq. inversion Heq. reflexivity.
Qed.

Lemma get_equipment_by_name_from_spec (n : json) es : forall k0,
  match get_equipment_by_name_from k0 n es with
  | Some k =>
      (k0 <= k)%nat /\
      (exists e, es !! (k - k0)%nat = Some e /\ n = JStr (name e)) /\
      (forall k' e', (k' < k - k0)%nat -> es !! k' = Some e' ->
                     n <> JStr (name e'))
  | None => forall e, e ∈ es -> n <> JStr (name e)
  end.
Proof.
  induction es as [|e es IH]; intros k0; cbn.
  - intros e He. apply elem_of_nil in He. contradiction.
  - destruct (is_str n (name e)) eqn:Hn.
    + apply is_str_true in Hn. split; [lia|].
      rewrite Nat.sub_diag. split; [exists e; auto|]. intros k' e' Hk. lia.
    + assert (Hne : n <> JStr (name e)).
      { intros Heq. apply is_str_true in Heq. congruence. }
      specialize (IH (S k0)).
      destruct (get_equipment_by_name_from (S k0) n es) as [k|].
      * destruct IH as (Hk & (e1 & He1 & Hn1) & Hmin).
        split; [lia|]. split.
        -- exists e1. replace (k - k0)%nat with (S (k - S k0)) by lia.
           auto.
        -- intros k' e' Hk' He'. destruct k' as [|k']; cbn in He'.
           ++ congruence.
           ++ apply (Hmin k' e'); [lia|exact He'].
      * intros e' He'. apply elem_of_cons in He' as [->|He']; auto.
Qed.

(** X8.  [get_equipment_by_name] returns the first equipment of the
    list, in priority order, whose name is the name asked for, and
    [None] exactly when no equipment has that name (in particular when
    the name asked for is not a string). *)
Theorem get_equipment_by_name_first (n : json) es :
  match get_equipment_by_name n es with
  | Some k =>
      (exists e, es !! k = Some e /\ n = JStr (name e)) /\
      (forall k' e', (k' < k)%nat -> es !! k' = Some e' -> n <> JStr (name e'))
  | None => forall e, e ∈ es -> n <> JStr (name e)
  end.
Proof.
  unfold get_equipment_by_name.
  pose proof (get_equipment_by_name_from_spec n es 0) as Hspec.
  destruct (get_equipment_by_name_from 0 n es) as [k|]; [|exact Hspec].
  rewrite Nat.sub_0_r in Hspec. destruct Hspec as (_ & He & Hmin). auto.
Qed.

(** ** [on_message] *)

Lemma on_message_Some t topic payload g g' :
  on_message_body cfg sns force_json t topic payload g = Some g' ->
  on_message cfg sns force_json t topic payload g = g'.
Proof. unfold on_message. intros ->. reflexivity. Qed.

Lemma on_message_None t topic payload g :
  on_message_body cfg sns force_json t topic payload g = None ->
  on_message cfg sns force_json t topic payload g = g.
Proof. unfold on_message. intros ->. reflexivity. Qed.

(** What a message does: nothing, or an assignment followed by
    [evaluate].  The assignment is of one reading, or of the equipments
    (a command), whose number it keeps. *)
Lemma on_message_cases t topic payload g :
  on_message cfg sns force_json t topic payload g = g \/
  (topic = TOPIC_SENSOR_CONSUMPTION sns /\
   exists n, power_reading sns payload = Some n /\
     on_message cfg sns force_json t topic payload g
     = evaluate cfg t (set_power_consumption (Some n) g)) \/
  (topic <> TOPIC_SENSOR_CONSUMPTION sns /\
   topic = TOPIC_SENSOR_PRODUCTION sns /\
   exists n, power_reading sns payload = Some n /\
     on_message cfg sns force_json t topic payload g
     = evaluate cfg t (set_power_production (Some n) g)) \/
  (topic <> TOPIC_SENSOR_CONSUMPTION sns /\
   topic <> TOPIC_SENSOR_PRODUCTION sns /\
   topic = TOPIC_REGULATION_MODE /\
   exists k e',
     (k < length (equipments (equip g)))%nat /\
     on_message cfg sns force_json t topic payload g
     = evaluate cfg t
         (set_equipments (<[k := e']> (equipments (equip g))) g)).
Proof.
  unfold on_message, on_message_body.
  destruct (String.eqb_spec topic (TOPIC_SENSOR_CONSUMPTION sns)) as [Hc|Hc].
  { destruct (power_reading sns payload) as [n|]; cbn; [|by left].
    right; left. eauto. }
  destruct (String.eqb_spec topic (TOPIC_SENSOR_PRODUCTION sns)) as [Hp|Hp].
  { destruct (power_reading sns payload) as [n|]; cbn; [|by left].
    right; right; left. eauto. }
  destruct (String.eqb_spec topic TOPIC_REGULATION_MODE) as [Hm|Hm];
    [|by left].
  destruct (json_loads sns payload) as [j|]; cbn; [|by left].
  destruct (subscript j "command") as [command|]; cbn; [|by left].
  destruct (subscript j "name") as [n|]; cbn; [|by left].
  destruct (is_str command "force").
  - destruct (get_equipment_by_name n (equipments (equip g))) as [k|];
      [|by left].
    unfold force_command.
    destruct (subscript j "power") as [power|]; cbn; [|by left].
    destruct (dict_get j "duration") as [duration|]; cbn; [|by left].
    destruct (equipments (equip g) !! k) as [e|] eqn:He; cbn; [|by left].
    right; right; right. repeat split; try assumption.
    eexists k, _. split; [eapply lookup_lt_Some; eauto|reflexivity].
  - destruct (is_str command "unforce"); [|by left].
    destruct (get_equipment_by_name n (equipments (equip g))) as [k|];
      [|by left].
    unfold unforce_command.
    destruct (equipments (equip g) !! k) as [e|] eqn:He; cbn; [|by left].
    right; right; right. repeat split; try assumption.
    eexists k, _. split; [eapply lookup_lt_Some; eauto|reflexivity].
Qed.

(** X9.  A message whose topic is none of the three topics of
    [on_message] changes nothing: no reading is stored and no evaluation
    is made. *)
Theorem on_message_other_topic t topic payload g :
  topic <> TOPIC_SENSOR_CONSUMPTION sns ->
  topic <> TOPIC_SENSOR_PRODUCTION sns ->
  topic <> TOPIC_REGULATION_MODE ->
  on_message cfg sns force_json t topic payload g = g.
Proof.
  intros Hc Hp Hm.
  destruct (on_message_cases t topic payload g)
    as [Hg|[[Heq _]|[(_ & Heq & _)|(_ & _ & Heq & _)]]];
    [exact Hg|contradiction..].
Qed.

(** X10.  A malformed reading is dropped whole.  On a sensor topic, when
    the payload is not JSON, or is not a dictionary with the key
    [power], or when [int] refuses the value, the state is the same: the
    reading is not stored and [evaluate] is not called (the timestamp
    of the last evaluation stays). *)
Theorem on_message_drops_malformed t topic payload g :
  topic = TOPIC_SENSOR_CONSUMPTION sns \/ topic = TOPIC_SENSOR_PRODUCTION sns ->
  json_loads sns payload = None \/
  (exists doc, json_loads sns payload = Some doc /\
               (subscript doc "power" = None \/
                exists v, subscript doc "power" = Some v /\
                          py_int sns v = None)) ->
  on_message cfg sns force_json t topic payload g = g.
Proof.
  intros Htopic Hbad.
  assert (Hread : power_reading sns payload = None).
  { unfold power_reading.
    destruct Hbad as [Hj|(doc & Hj & [Hv|(v & Hv & Hi)])];
      rewrite Hj; cbn; [reflexivity|rewrite Hv; reflexivity|].
    rewrite Hv. cbn. exact Hi. }
  destruct (on_message_cases t topic payload g)
    as [Hg|[(_ & n & Hn & _)|[(_ & _ & n & Hn & _)|(Hc & Hp & _)]]];
    [exact Hg|congruence|congruence|].
  destruct Htopic; contradiction.
Qed.

(** X11.  The rate limit does not drop a reading.  A well-formed
    reading that arrives less than [EVALUATION_PERIOD] seconds after
    the last evaluation, the same day, is stored, and nothing else
    changes. *)
Theorem reading_kept_when_rate_limited t topic payload g n :
  rate_limited cfg t g ->
  power_reading sns payload = Some n ->
  (topic = TOPIC_SENSOR_CONSUMPTION sns ->
   on_message cfg sns force_json t topic payload g
   = set_power_consumption (Some n) g) /\
  (topic <> TOPIC_SENSOR_CONSUMPTION sns ->
   topic = TOPIC_SENSOR_PRODUCTION sns ->
   on_message cfg sns force_json t topic payload g
   = set_power_production (Some n) g).
Proof.
  intros Hr Hn.
  assert (Hev : forall g0,
            last_evaluation_date g0 = last_evaluation_date g ->
            evaluate cfg t g0 = g0).
  { intros g0 Hl. unfold evaluate.
    rewrite evaluate_body_rate_limited; [reflexivity|].
    unfold rate_limited in *. rewrite Hl. exact Hr. }
  split.
  - intros Hc. unfold on_message, on_message_body.
    apply String.eqb_eq in Hc. rewrite Hc, Hn. cbn. apply Hev. reflexivity.
  - intros Hc Hp. unfold on_message, on_message_body.
    apply String.eqb_neq in Hc. apply String.eqb_eq in Hp.
    rewrite Hc, Hp, Hn. cbn. apply Hev. reflexivity.
Qed.

(** What a message keeps. *)
Lemma on_message_keeps t topic payload g :
  (power_production (on_message cfg sns force_json t topic payload g)
   = power_production g \/
   topic <> TOPIC_SENSOR_CONSUMPTION sns /\
   topic = TOPIC_SENSOR_PRODUCTION sns /\
   exists n, power_production (on_message cfg sns force_json t topic payload g)
             = Some n) /\
  (power_consumption (on_message cfg sns force_json t topic payload g)
   = power_consumption g \/
   exists n, power_consumption (on_message cfg sns force_json t topic payload g)
             = Some n) /\
  length (equipments (equip (on_message cfg sns force_json t topic payload g)))
  = length (equipments (equip g)) /\
  (last_injection g <= 0 ->
   last_injection (on_message cfg sns force_json t topic payload g) <= 0).
Proof.
  destruct (on_message_cases t topic payload g)
    as [->|[(Hc & n & _ & ->)|[(Hc & Hp & n & _ & ->)
       |(Hc & Hp & Hm & k & e' & Hk & ->)]]].
  - auto.
  - destruct (evaluate_keeps t (set_power_consumption (Some n) g))
      as (H1 & H2 & _ & _ & H5 & H6).
    rewrite H1, H2, H5. cbn. repeat split; eauto.
  - destruct (evaluate_keeps t (set_power_production (Some n) g))
      as (H1 & H2 & _ & _ & H5 & H6).
    rewrite H1, H2, H5. cbn. repeat split; eauto.
  - destruct (evaluate_keeps t
                (set_equipments (<[k := e']> (equipments (equip g))) g))
      as (H1 & H2 & _ & _ & H5 & H6).
    rewrite H1, H2, H5. cbn. rewrite length_insert. repeat split; eauto.
Qed.

Lemma on_messages_cons (m : Q * string * string) ms g :
  on_messages cfg sns force_json (m :: ms) g
  = on_messages cfg sns force_json ms
      (on_message cfg sns force_json m.1.1 m.1.2 m.2 g).
Proof. reflexivity. Qed.

(** X12.  Whatever messages arrive and whenever they do: a reading that
    has arrived is never forgotten, the number of equipments stays the
    same, and [last_injection], negative at the start, never becomes
    positive. *)
Theorem messages_keep (ms : list (Q * string * string)) g :
  (is_Some (power_production g) ->
   is_Some (power_production (on_messages cfg sns force_json ms g))) /\
  (is_Some (power_consumption g) ->
   is_Some (power_consumption (on_messages cfg sns force_json ms g))) /\
  length (equipments (equip (on_messages cfg sns force_json ms g)))
  = length (equipments (equip g)) /\
  (last_injection g <= 0 ->
   last_injection (on_messages cfg sns force_json ms g) <= 0).
Proof.
  revert g. induction ms as [|m ms IH]; intros g; [cbn; auto|].
  rewrite on_messages_cons.
  destruct (on_message_keeps m.1.1 m.1.2 m.2 g) as (Hp & Hc & Hl & Hi).
  destruct (IH (on_message cfg sns force_json m.1.1 m.1.2 m.2 g))
    as (IHp & IHc & IHl & IHi).
  split; [|split; [|split]].
  - intros Hsome. apply IHp.
    destruct Hp as [->|(_ & _ & n & ->)]; [exact Hsome|eauto].
  - intros Hsome. apply IHc.
    destruct Hc as [->|(n & ->)]; [exact Hsome|eauto].
  - congruence.
  - auto.
Qed.

(** X13.  Readings of the consumption alone never start the balancer.
    As long as no production has been received, messages on the topic
    of the consumption, well formed or not, and messages on foreign
    topics leave the equipments as they are and publish nothing. *)
Theorem consumption_alone_never_balances (ms : list (Q * string * string)) g :
  power_production g = None ->
  Forall (fun m => m.1.2 = TOPIC_SENSOR_CONSUMPTION sns \/
                   (m.1.2 <> TOPIC_SENSOR_PRODUCTION sns /\
                    m.1.2 <> TOPIC_REGULATION_MODE)) ms ->
  power_production (on_messages cfg sns force_json ms g) = None /\
  equip (on_messages cfg sns force_json ms g) = equip g /\
  published (on_messages cfg sns force_json ms g) = published g.
Proof.
  intros Hnone Hall. revert g Hnone.
  induction Hall as [|m ms Hm _ IH]; intros g Hnone; [cbn; auto|].
  rewrite on_messages_cons.
  assert (Hstep : power_production
                    (on_message cfg sns force_json m.1.1 m.1.2 m.2 g) = None /\
                  equip (on_message cfg sns force_json m.1.1 m.1.2 m.2 g)
                  = equip g /\
                  published (on_message cfg sns force_json m.1.1 m.1.2 m.2 g)
                  = published g).
  { destruct (on_message_cases m.1.1 m.1.2 m.2 g)
      as [->|[(Hc & n & _ & ->)|[(Hc & Hp & _)|(Hc & Hp & Hmode & _)]]].
    - auto.
    - destruct (evaluate_missing_reading m.1.1
                  (set_power_consumption (Some n) g)) as (He & Hpub & _);
        [left; exact Hnone|].
      destruct (evaluate_keeps m.1.1 (set_power_consumption (Some n) g))
        as (H1 & _).
      rewrite H1, He, Hpub. auto.
    - destruct Hm as [Hm|[Hm _]]; contradiction.
    - destruct Hm as [Hm|[_ Hm]]; contradiction. }
  destruct Hstep as (Hp1 & He1 & Hpub1).
  destruct (IH _ Hp1) as (Hp2 & He2 & Hpub2).
  rewrite Hp2, He2, Hpub2. auto.
Qed.

(** X14.  One topic for the two sensors.  If the topics of the
    consumption and of the production are the same, every reading is
    taken for a consumption: no message ever changes
    [power_production]. *)
Theorem same_topic_hides_production (ms : list (Q * string * string)) g :
  TOPIC_SENSOR_CONSUMPTION sns = TOPIC_SENSOR_PRODUCTION sns ->
  power_production (on_messages cfg sns force_json ms g) = power_production g.
Proof.
  intros Hsame. revert g. induction ms as [|m ms IH]; intros g; [reflexivity|].
  rewrite on_messages_cons, IH.
  destruct (on_message_keeps m.1.1 m.1.2 m.2 g) as ([Hp|(Hc & Hp & _)] & _);
    [exact Hp|congruence].
Qed.

(** X15.  Commands that do nothing.  On the topic of the commands, a
    well-formed message with a [command] and a [name] changes nothing
    and triggers no evaluation when the command is neither [force] nor
    [unforce], when no equipment has that name, or when a [force] comes
    without its [power]. *)
Theorem command_ignored t payload g doc command n :
  TOPIC_REGULATION_MODE <> TOPIC_SENSOR_CONSUMPTION sns ->
  TOPIC_REGULATION_MODE <> TOPIC_SENSOR_PRODUCTION sns ->
  json_loads sns payload = Some doc ->
  subscript doc "command" = Some command ->
  subscript doc "name" = Some n ->
  (command <> JStr "force" -> command <> JStr "unforce" ->
   on_message cfg sns force_json t TOPIC_REGULATION_MODE payload g = g) /\
  (get_equipment_by_name n (equipments (equip g)) = None ->
   on_message cfg sns force_json t TOPIC_REGULATION_MODE payload g = g) /\
  (command = JStr "force" -> subscript doc "power" = None ->
   on_message cfg sns force_json t TOPIC_REGULATION_MODE payload g = g).
Proof.
  intros Hc Hp Hj Hcmd Hn.
  apply String.eqb_neq in Hc. apply String.eqb_neq in Hp.
  unfold on_message, on_message_body.
  rewrite Hc, Hp, String.eqb_refl, Hj. cbn. rewrite Hcmd. cbn. rewrite Hn. cbn.
  split; [|split].
  - intros Hf Hu.
    destruct (is_str command "force") eqn:H1;
      [apply is_str_true in H1; contradiction|].
    destruct (is_str command "unforce") eqn:H2;
      [apply is_str_true in H2; contradiction|]. reflexivity.
  - intros ->. destruct (is_str command "force"); [reflexivity|].
    destruct (is_str command "unforce"); reflexivity.
  - intros -> Hpow. cbn.
    destruct (get_equipment_by_name n (equipments (equip g))) as [k|];
      [|reflexivity].
    unfold force_command. rewrite Hpow. reflexivity.
Qed.


End MoreProperties.

(** * The further properties at work *)

Section MoreRuns.

Import Loads House Scripted Wire.

(** X2 at work: the first tick, before any reading. *)
Lemma missing_reading_defers_witness :
  (power_production (start [heater]) = None \/
   power_consumption (start [heater]) = None) /\
  proceeds settings t_later (start [heater]) /\
  published (evaluate settings t_later (start [heater])) = [] /\
  evaluate_body settings t_later (start [heater])
  = (Ok tt, set_last_evaluation_date (Some t_later) (start [heater])).
Proof.
  assert (Hmiss : power_production (start [heater]) = None \/
                  power_consumption (start [heater]) = None)
    by (left; reflexivity).
  assert (Hp : proceeds settings t_later (start [heater])) by exact I.
  destruct (missing_reading_defers settings t_later (start [heater]) Hmiss)
    as (_ & Hpub & _ & Hbody).
  split; [exact Hmiss|]. split; [exact Hp|].
  split; [exact Hpub|exact (Hbody Hp)].
Defined.

(** X3 at work: two ticks of the day after, an hour apart. *)
Lemma rollover_never_completes_witness :
  equipments (equip (evening [heater])) !! water_heater settings = Some heater /\
  Forall (fun t => rollover_tick settings t (evening [heater]))
    [t_next_day; (t_next_day + 3600)%Q] /\
  [t_next_day; (t_next_day + 3600)%Q] <> [] /\
  foldl (fun g t => evaluate settings t g) (evening [heater])
    [t_next_day; (t_next_day + 3600)%Q]
  = set_ECS_energy_today 250 (evening [heater]).
Proof.
  assert (Hall : Forall (fun t => rollover_tick settings t (evening [heater]))
                   [t_next_day; (t_next_day + 3600)%Q]).
  { repeat constructor; vm_compute; discriminate. }
  assert (Hne : [t_next_day; (t_next_day + 3600)%Q] <> []) by discriminate.
  split; [reflexivity|]. split; [exact Hall|]. split; [exact Hne|].
  exact (rollover_never_completes settings _ (evening [heater]) heater
           eq_refl Hall Hne).
Defined.

(** X4 at work: the plug answers [None] in the recovery. *)
Lemma balance_raises_only_type_error_witness :
  balance settings 2100 1000 (Store [charger; heater; plug] [])
  = (Raise TypeError,
     Store [charger; heater; plug]
       [Increase 0 1000 (Some (-500)); Decrease 2 500 None]) /\
  length [charger; heater; plug] = 3%nat.
Proof.
  assert (Hrun : balance settings 2100 1000 (Store [charger; heater; plug] [])
                 = (Raise TypeError,
                    Store [charger; heater; plug]
                      [Increase 0 1000 (Some (-500)); Decrease 2 500 None]))
    by reflexivity.
  split; [exact Hrun|].
  exact (proj1 (balance_raises_only_type_error settings 2100 1000 _ _ _ Hrun)).
Defined.

(** X5 at work: the charger is served, the heater gives, the charger is
    served again. *)
Lemma excess_pass_priority_witness :
  1000 <= 2100 - MARGIN settings /\
  balance settings 2100 1000 (Store [charger; heater] [])
  = (Ok tt,
     Store [set_power 1500 charger; set_power 100 heater]
       [Increase 0 1000 (Some (-500)); Decrease 1 500 (Some 500);
        Increase 0 1500 (Some 0)]) /\
  exists tr,
    [Increase 0 1000 (Some (-500)); Decrease 1 500 (Some 500);
     Increase 0 1500 (Some 0)] = [] ++ tr /\
    by_priority None tr.
Proof.
  assert (Hle : 1000 <= 2100 - MARGIN settings) by (vm_compute; discriminate).
  assert (Hrun : balance settings 2100 1000 (Store [charger; heater] [])
                 = (Ok tt,
                    Store [set_power 1500 charger; set_power 100 heater]
                      [Increase 0 1000 (Some (-500)); Decrease 1 500 (Some 500);
                       Increase 0 1500 (Some 0)]))
    by reflexivity.
  split; [exact Hle|]. split; [exact Hrun|].
  exact (excess_pass_priority settings 2100 1000 _ _ _ Hle Hrun).
Defined.

(** X6 at work: the charger, switched on, leaves nothing: the heater is
    not examined. *)
Lemma excess_pass_stops_witness :
  1000 <= 2100 - MARGIN settings /\
  balance settings 2100 1000 (Store [charger; heater] [])
  = (Ok tt,
     Store [set_power 1500 charger; set_power 100 heater]
       ([] ++ [Increase 0 1000 (Some (-500)); Decrease 1 500 (Some 500)]
           ++ Increase 0 1500 (Some 0) :: [])) /\
  is_decrease (Increase 0 1500 (Some 0)) = false /\
  (call_result (Increase 0 1500 (Some 0)) = None \/
   call_result (Increase 0 1500 (Some 0)) = Some 0) /\
  @nil call = [].
Proof.
  assert (Hle : 1000 <= 2100 - MARGIN settings) by (vm_compute; discriminate).
  assert (Hrun : balance settings 2100 1000 (Store [charger; heater] [])
                 = (Ok tt,
                    Store [set_power 1500 charger; set_power 100 heater]
                      ([] ++ [Increase 0 1000 (Some (-500));
                              Decrease 1 500 (Some 500)]
                          ++ Increase 0 1500 (Some 0) :: [])))
    by reflexivity.
  assert (Hres : call_result (Increase 0 1500 (Some 0)) = None \/
                 call_result (Increase 0 1500 (Some 0)) = Some 0)
    by (right; reflexivity).
  split; [exact Hle|]. split; [exact Hrun|]. split; [reflexivity|].
  split; [exact Hres|].
  exact (excess_pass_stops settings 2100 1000 _ _ _ _
           [Increase 0 1000 (Some (-500)); Decrease 1 500 (Some 500)]
           (Increase 0 1500 (Some 0)) [] Hle Hrun eq_refl eq_refl eq_refl Hres).
Defined.

(** X7 at work: the silent load refuses, gets 500 W from the donor,
    and does not answer the second time. *)
Lemma retry_none_raises_witness :
  (2 = length (equipments (Store [silent; donor] [])))%nat /\
  0 < 1000 /\
  equipments (Store [silent; donor] []) !! 0%nat = Some silent /\
  is_forced silent = false /\
  (increase_power_by 1000 silent).1 = Some (-500) /\
  -500 < 0 /\
  increase_loop 2 (range 0 2) (Some 1000) (Store [silent; donor] [])
  = (Raise TypeError,
     Store [Mock "silent" 0 []; Mock "donor" 100 []]
       [Increase 0 1000 (Some (-500)); Decrease 1 500 (Some 500);
        Increase 0 1500 None]).
Proof.
  split; [reflexivity|]. split; [lia|]. split; [reflexivity|].
  split; [reflexivity|]. split; [reflexivity|]. split; [lia|].
  exact (retry_none_raises 2 0 1000 (Store [silent; donor] []) silent (-500) _
           eq_refl ltac:(lia) eq_refl eq_refl eq_refl ltac:(lia) eq_refl).
Defined.

(** X9 at work: a message of the weather station. *)
Lemma on_message_other_topic_witness :
  "weather/rain"%string <> TOPIC_SENSOR_CONSUMPTION wires /\
  "weather/rain"%string <> TOPIC_SENSOR_PRODUCTION wires /\
  "weather/rain"%string <> TOPIC_REGULATION_MODE /\
  on_message settings wires force_load t_later "weather/rain" power_3500
    (first_tick [heater])
  = first_tick [heater].
Proof.
  assert (H1 : "weather/rain"%string <> TOPIC_SENSOR_CONSUMPTION wires)
    by discriminate.
  assert (H2 : "weather/rain"%string <> TOPIC_SENSOR_PRODUCTION wires)
    by discriminate.
  assert (H3 : "weather/rain"%string <> TOPIC_REGULATION_MODE) by discriminate.
  split; [exact H1|]. split; [exact H2|]. split; [exact H3|].
  exact (on_message_other_topic settings wires force_load t_later _ _ _
           H1 H2 H3).
Defined.

(** X10 at work: the sensor sends its error text. *)
Lemma on_message_drops_malformed_witness :
  ("sensors/consumption"%string = TOPIC_SENSOR_CONSUMPTION wires \/
   "sensors/consumption"%string = TOPIC_SENSOR_PRODUCTION wires) /\
  json_loads wires pzem_error = None /\
  on_message settings wires force_load t_later "sensors/consumption" pzem_error
    (first_tick [heater])
  = first_tick [heater].
Proof.
  assert (Ht : "sensors/consumption"%string = TOPIC_SENSOR_CONSUMPTION wires \/
               "sensors/consumption"%string = TOPIC_SENSOR_PRODUCTION wires)
    by (left; reflexivity).
  assert (Hj : json_loads wires pzem_error = None) by reflexivity.
  split; [exact Ht|]. split; [exact Hj|].
  exact (on_message_drops_malformed settings wires force_load t_later _ _ _
           Ht (or_introl Hj)).
Defined.

(** X11 at work: a production of 2100 W, four seconds after the last
    evaluation. *)
Lemma reading_kept_when_rate_limited_witness :
  rate_limited settings t_soon (evening [heater]) /\
  power_reading wires power_2100 = Some 2100 /\
  "sensors/production"%string <> TOPIC_SENSOR_CONSUMPTION wires /\
  "sensors/production"%string = TOPIC_SENSOR_PRODUCTION wires /\
  on_message settings wires force_load t_soon "sensors/production" power_2100
    (evening [heater])
  = set_power_production (Some 2100) (evening [heater]).
Proof.
  assert (Hr : rate_limited settings t_soon (evening [heater]))
    by (split; vm_compute; reflexivity).
  assert (Hn : power_reading wires power_2100 = Some 2100) by reflexivity.
  assert (Hc : "sensors/production"%string <> TOPIC_SENSOR_CONSUMPTION wires)
    by discriminate.
  split; [exact Hr|]. split; [exact Hn|]. split; [exact Hc|].
  split; [reflexivity|].
  exact (proj2 (reading_kept_when_rate_limited settings wires force_load
                  t_soon _ _ (evening [heater]) 2100 Hr Hn) Hc eq_refl).
Defined.

(** X12 at work: a consumption, an error text and a production. *)
Lemma messages_keep_witness :
  is_Some (power_production (first_tick [heater])) /\
  last_injection (first_tick [heater]) <= 0 /\
  is_Some (power_production
             (on_messages settings wires force_load
                [(t_last, "sensors/consumption"%string, power_3500);
                 (t_soon, "sensors/consumption"%string, pzem_error);
                 (t_later, "sensors/production"%string, power_2100)]
                (first_tick [heater]))) /\
  last_injection
    (on_messages settings wires force_load
       [(t_last, "sensors/consumption"%string, power_3500);
        (t_soon, "sensors/consumption"%string, pzem_error);
        (t_later, "sensors/production"%string, power_2100)]
       (first_tick [heater])) <= 0.
Proof.
  assert (Hs : is_Some (power_production (first_tick [heater])))
    by (eexists; reflexivity).
  assert (Hi : last_injection (first_tick [heater]) <= 0)
    by (vm_compute; discriminate).
  destruct (messages_keep settings wires force_load
              [(t_last, "sensors/consumption"%string, power_3500);
               (t_soon, "sensors/consumption"%string, pzem_error);
               (t_later, "sensors/production"%string, power_2100)]
              (first_tick [heater])) as (Hp & _ & _ & Hinj).
  split; [exact Hs|]. split; [exact Hi|]. split; [exact (Hp Hs)|exact (Hinj Hi)].
Defined.

(** X13 at work: consumptions and a foreign message, from the start. *)
Lemma consumption_alone_never_balances_witness :
  power_production (start [heater]) = None /\
  Forall (fun m : Q * string * string =>
            m.1.2 = TOPIC_SENSOR_CONSUMPTION wires \/
            (m.1.2 <> TOPIC_SENSOR_PRODUCTION wires /\
             m.1.2 <> TOPIC_REGULATION_MODE))
    [(t_last, "sensors/consumption"%string, power_3500);
     (t_later, "weather/rain"%string, power_2100);
     (t_next_day, "sensors/consumption"%string, power_2100)] /\
  published
    (on_messages settings wires force_load
       [(t_last, "sensors/consumption"%string, power_3500);
        (t_later, "weather/rain"%string, power_2100);
        (t_next_day, "sensors/consumption"%string, power_2100)]
       (start [heater])) = [].
Proof.
  assert (Hall : Forall (fun m : Q * string * string =>
                           m.1.2 = TOPIC_SENSOR_CONSUMPTION wires \/
                           (m.1.2 <> TOPIC_SENSOR_PRODUCTION wires /\
                            m.1.2 <> TOPIC_REGULATION_MODE))
                   [(t_last, "sensors/consumption"%string, power_3500);
                    (t_later, "weather/rain"%string, power_2100);
                    (t_next_day, "sensors/consumption"%string, power_2100)]).
  { constructor; [left; reflexivity|].
    constructor; [right; split; discriminate|].
    constructor; [left; reflexivity|constructor]. }
  split; [reflexivity|]. split; [exact Hall|].
  destruct (consumption_alone_never_balances settings wires force_load _
              (start [heater]) eq_refl Hall) as (_ & _ & Hpub).
  exact Hpub.
Defined.

(** X14 at work: both sensors write on one topic. *)
Lemma same_topic_hides_production_witness :
  TOPIC_SENSOR_CONSUMPTION one_wire = TOPIC_SENSOR_PRODUCTION one_wire /\
  power_production
    (on_messages settings one_wire force_load
       [(t_last, "sensors/power"%string, power_3500);
        (t_later, "sensors/power"%string, power_2100)]
       (start [heater])) = None.
Proof.
  split; [reflexivity|].
  exact (same_topic_hides_production settings one_wire force_load
           [(t_last, "sensors/power"%string, power_3500);
            (t_later, "sensors/power"%string, power_2100)]
           (start [heater]) eq_refl).
Defined.

(** X15 at work: an unknown command, an unknown equipment and a
    [force] without power. *)
Lemma command_ignored_witness :
  TOPIC_REGULATION_MODE <> TOPIC_SENSOR_CONSUMPTION wires /\
  TOPIC_REGULATION_MODE <> TOPIC_SENSOR_PRODUCTION wires /\
  on_message settings wires force_load t_later TOPIC_REGULATION_MODE blink
    (first_tick [heater]) = first_tick [heater] /\
  get_equipment_by_name (JStr "boiler") (equipments (equip (first_tick [heater])))
  = None /\
  on_message settings wires force_load t_later TOPIC_REGULATION_MODE force_boiler
    (first_tick [heater]) = first_tick [heater] /\
  on_message settings wires force_load t_later TOPIC_REGULATION_MODE
    force_no_power (first_tick [heater]) = first_tick [heater].
Proof.
  assert (Hc : TOPIC_REGULATION_MODE <> TOPIC_SENSOR_CONSUMPTION wires)
    by discriminate.
  assert (Hp : TOPIC_REGULATION_MODE <> TOPIC_SENSOR_PRODUCTION wires)
    by discriminate.
  split; [exact Hc|]. split; [exact Hp|].
  split.
  { refine (proj1 (command_ignored settings wires force_load t_later blink
                     (first_tick [heater]) _ (JStr "blink") (JStr "ECS")
                     Hc Hp eq_refl eq_refl eq_refl) _ _); discriminate. }
  split; [reflexivity|].
  split.
  { exact (proj1 (proj2 (command_ignored settings wires force_load t_later
                           force_boiler (first_tick [heater]) _
                           (JStr "force") (JStr "boiler")
                           Hc Hp eq_refl eq_refl eq_refl)) eq_refl). }
  exact (proj2 (proj2 (command_ignored settings wires force_load t_later
                         force_no_power (first_tick [heater]) _
                         (JStr "force") (JStr "ECS")
                         Hc Hp eq_refl eq_refl eq_refl)) eq_refl eq_refl).
Defined.


End MoreRuns.
